(** * The stroeerCore bid adapter (modules/stroeerCoreBidAdapter.js)

    A shallow embedding of the adapter and the properties of its entry
    points [isBidRequestValid], [buildRequests] and [interpretResponse], with
    the probes of the browsing context that [buildRequests] uses.

    JavaScript values are a first-order tree ([JS.value]); an object is an
    association list, its properties in the order they were added.  Code that can raise runs in
    [JS.result]; code that also logs or fires a request runs in [JS.eff],
    which collects the events in program order.

    Numbers: [JS.Fin q] stands for the finite number written [q], [JS.NaN]
    for the failed coercion.  The adapter computes only with millisecond
    timestamps and pixel offsets; every other number is passed through
    untouched and only tested for truthiness or compared with a literal. *)

From Stdlib Require Import String Ascii List ZArith QArith Bool Lia DecimalString.
Import ListNotations.
Open Scope list_scope.
Open Scope string_scope.
Close Scope Q_scope.
Set Warnings "-register-all".

(* ================================================================== *)
(** * JavaScript values and the operators the adapter uses *)
(* ================================================================== *)

Module JS.

Inductive number :=
| NaN
| Fin (q : Q).

Inductive value :=
| VUndef
| VNull
| VBool (b : bool)
| VNum (n : number)
| VStr (s : string)
| VArr (items : list value)
| VObj (props : list (string * value)).

Definition object := list (string * value).

Definition num (z : Z) : value := VNum (Fin (inject_Z z)).

(** Exceptions: a [TypeError] from reading a property of [undefined] or
    [null] or calling something that is not a function, a [SecurityError]
    from a cross-origin access. *)
Inductive exn :=
| TypeError
| SecurityError.

Inductive result (A : Type) :=
| Ret (a : A)
| Throw (e : exn).
Arguments Ret {A} a.
Arguments Throw {A} e.

Definition bind {A B} (c : result A) (k : A -> result B) : result B :=
  match c with
  | Ret a => k a
  | Throw e => Throw e
  end.

(** Observable effects of the adapter: [utils.logError] and [ajax]. *)
Inductive event :=
| LogError (msg : string)
| Ajax (url : value).

Definition eff (A : Type) : Type := (list event * result A)%type.

Definition eret {A} (a : A) : eff A := ([], Ret a).

Definition ebind {A B} (c : eff A) (k : A -> eff B) : eff B :=
  match c with
  | (tr, Ret a) => let (tr', r) := k a in ((tr ++ tr')%list, r)
  | (tr, Throw e) => (tr, Throw e)
  end.

Definition lift {A} (c : result A) : eff A := ([], c).

Definition emit (ev : event) : eff unit := ([ev], Ret tt).

Declare Scope js_scope.
Delimit Scope js_scope with js.
Notation "x <- c ;; k" := (bind c (fun x => k))
  (at level 100, c at next level, right associativity) : js_scope.
Notation "x <~ c ;; k" := (ebind c (fun x => k))
  (at level 100, c at next level, right associativity) : js_scope.
Open Scope js_scope.

(** ToBoolean. *)
Definition truthy (v : value) : bool :=
  match v with
  | VUndef | VNull => false
  | VBool b => b
  | VNum NaN => false
  | VNum (Fin q) => negb (Qeq_bool q 0)
  | VStr s => negb (String.eqb s "")
  | VArr _ | VObj _ => true
  end.

(** [typeof v]. *)
Definition typeof (v : value) : string :=
  match v with
  | VUndef => "undefined"
  | VBool _ => "boolean"
  | VNum _ => "number"
  | VStr _ => "string"
  | VNull | VArr _ | VObj _ => "object"
  end.

(** [v == null], so [negb (nullish v)] is [v != null]. *)
Definition nullish (v : value) : bool :=
  match v with
  | VUndef | VNull => true
  | _ => false
  end.

(** [v === p] where one side is a primitive; the adapter never compares two
    objects for identity through a value, so those cases are [false]. *)
Definition strict_eq (v p : value) : bool :=
  match v, p with
  | VUndef, VUndef | VNull, VNull => true
  | VBool a, VBool b => Bool.eqb a b
  | VNum (Fin a), VNum (Fin b) => Qeq_bool a b
  | VStr a, VStr b => String.eqb a b
  | _, _ => false
  end.

Fixpoint lookup (k : string) (o : object) : option value :=
  match o with
  | [] => None
  | (k', v) :: r => if String.eqb k k' then Some v else lookup k r
  end.

Definition has_prop (o : object) (k : string) : bool :=
  match lookup k o with Some _ => true | None => false end.

Definition prop (o : object) (k : string) : value :=
  match lookup k o with Some v => v | None => VUndef end.

(** [o[k] = v]: an existing property keeps its place, a new one goes last. *)
Fixpoint set_prop (o : object) (k : string) (v : value) : object :=
  match o with
  | [] => [(k, v)]
  | (k', v') :: r =>
      if String.eqb k k' then (k, v) :: r else (k', v') :: set_prop r k v
  end.

(** [v.k] for the property names the adapter reads.  None of them is an
    array index or a name found on a built-in prototype, so only an object
    can answer with something other than [undefined]. *)
Definition get (v : value) (k : string) : result value :=
  match v with
  | VUndef | VNull => Throw TypeError
  | VObj o => Ret (prop o k)
  | _ => Ret VUndef
  end.

(** [a || b] and [a && b] with [b] already evaluated (used where evaluating
    [b] cannot raise). *)
Definition or_else (a b : value) : value := if truthy a then a else b.

(** A destructuring default: applies when the property is [undefined]. *)
Definition default_to (v d : value) : value :=
  match v with VUndef => d | _ => v end.

Definition index_key (n : nat) : string :=
  NilEmpty.string_of_uint (Nat.to_uint n).

Fixpoint indexed {A} (n : nat) (l : list A) : list (nat * A) :=
  match l with
  | [] => []
  | x :: r => (n, x) :: indexed (S n) r
  end.

Fixpoint chars (s : string) : list value :=
  match s with
  | EmptyString => []
  | String c r => VStr (String c EmptyString) :: chars r
  end.

(** The own enumerable properties of a value, as [Object.assign] sees them
    in a source. *)
Definition own_props (v : value) : object :=
  match v with
  | VObj o => o
  | VArr l => map (fun p => (index_key (fst p), snd p)) (indexed 0 l)
  | VStr s => map (fun p => (index_key (fst p), snd p)) (indexed 0 (chars s))
  | _ => []
  end.

(** [Object.assign(target, source)]: which properties the target ends up
    with and their values.  A new property goes last; the place JavaScript
    gives an integer-like key when it enumerates is not modelled. *)
Definition Object_assign (target : object) (source : value) : object :=
  fold_left (fun t kv => set_prop t (fst kv) (snd kv)) (own_props source) target.

Section ToString.

(** Number::toString of the runtime. *)
Variable NumberToString : number -> string.

Fixpoint join (sep : string) (parts : list string) : string :=
  match parts with
  | [] => ""
  | [p] => p
  | p :: r => p ++ sep ++ join sep r
  end.

(** ToString on the value tree: an array joins its items with commas, a
    plain object prints as [[object Object]]. *)
Fixpoint ToString (v : value) : string :=
  match v with
  | VUndef => "undefined"
  | VNull => "null"
  | VBool true => "true"
  | VBool false => "false"
  | VNum n => NumberToString n
  | VStr s => s
  | VArr l =>
      join "," (map (fun x => if nullish x then "" else ToString x) l)
  | VObj _ => "[object Object]"
  end.

End ToString.

End JS.

Import JS.

(* ================================================================== *)
(** * Helpers of Prebid core the adapter calls (src/utils.js, src/mediaTypes.js) *)
(* ================================================================== *)

Module Utils.

(** Modelled from the spec: [BANNER] of src/mediaTypes.js, the name under
    which the banner media type is declared. *)
Definition BANNER : string := "banner".

(** Modelled from the spec: [utils.isStr] of src/utils.js, which says
    whether a value is a string ([params.sid] must be a string). *)
Definition isStr (v : value) : bool :=
  match v with VStr _ => true | _ => false end.

(** Modelled from the spec: [utils.isEmpty] of src/utils.js; the identity
    map is sent only if non-empty.  A falsy value, an array or string
    without items and an object without own properties are empty. *)
Definition isEmpty (v : value) : bool :=
  if negb (truthy v) then true
  else match v with
       | VArr l => match l with [] => true | _ => false end
       | VObj o => match o with [] => true | _ => false end
       | VStr _ => false
       | _ => true
       end.

(** One step along a path: [obj ? obj[k] : undefined]. *)
Definition deepAccess_step (obj : value) (k : string) : value :=
  if truthy obj
  then match get obj k with Ret v => v | Throw _ => VUndef end
  else VUndef.

(** Modelled from the spec: [utils.deepAccess] of src/utils.js, which
    follows a dotted path (given here already split) and answers
    [undefined] where a step cannot be taken, so that the caller falls back;
    it never raises. *)
Fixpoint deepAccess (obj : value) (path : list string) : value :=
  match path with
  | [] => obj
  | k :: rest => deepAccess (deepAccess_step obj k) rest
  end.

Section WithToString.
Variable NumberToString : number -> string.

(** Modelled from the spec: [utils.buildUrl] of src/utils.js on the fields
    the adapter passes: scheme, [://], host name, a [:port] segment only
    when a port is given, then the path. *)
Definition buildUrl (protocol hostname port pathname : value) : string :=
  ToString NumberToString (or_else protocol (VStr "http")) ++ "://" ++
  ToString NumberToString hostname ++
  (if truthy port then ":" ++ ToString NumberToString port else "") ++
  ToString NumberToString (or_else pathname (VStr "")).

End WithToString.

End Utils.

(* ================================================================== *)
(** * Browsing contexts *)
(* ================================================================== *)

Module Dom.

Record rect := { top : Q; height : Q }.

(** An element; [getBoundingClientRect] raises where the runtime lacks it. *)
Record element := { getBoundingClientRect : result rect }.

(** What the adapter reads from a window.  Each read raises when the window
    belongs to another origin. *)
Record win_props := {
  innerHeight : result Q;
  location_href : result string;
  document_referrer : result value
}.

(** The chain of windows from the current one up to the top.  The top
    window is its own parent; a framed window has a [frameElement] (raising
    across origins, [None] for JavaScript's [null]) and a parent. *)
Inductive window :=
| TopWindow (w : win_props)
| FrameWindow (w : win_props) (frameElement : result (option element))
    (parent : window).

Definition props (win : window) : win_props :=
  match win with
  | TopWindow w => w
  | FrameWindow w _ _ => w
  end.

Definition is_top (win : window) : bool :=
  match win with TopWindow _ => true | FrameWindow _ _ _ => false end.

(** [utils.getWindowTop()] seen from [win]. *)
Fixpoint top_of (win : window) : window :=
  match win with
  | TopWindow _ => win
  | FrameWindow _ _ parent => top_of parent
  end.

(** The ambient state the adapter reads. *)
Record environment := {
  window_self : window;              (* utils.getWindowSelf() *)
  self_protocol : string;            (* its location.protocol *)
  self_referrer : value;             (* its own [referrer] property *)
  getElementById : string -> option element;  (* of its document *)
  Date_now : Z;                      (* Date.now() *)
  localStorage_sdgYieldtest : result value;   (* localStorage.sdgYieldtest *)
  yieldlove_ab : value               (* the global yieldlove_ab *)
}.

End Dom.

Import Dom.

(* ================================================================== *)
(** * The adapter *)
(* ================================================================== *)

Module StroeerCore.

Definition DEFAULT_HOST : string := "hb.adscale.de".
Definition DEFAULT_PATH : string := "/dsh".
Definition DEFAULT_PORT : string := "".

(** The batch the host hands to [buildRequests].  [auctionStart] and
    [timeout] are whole numbers of milliseconds.  The runtime holds them as
    doubles and subtracts them as doubles; the model subtracts the integers,
    which is the same as long as the operands and the differences stay
    within the integers a double holds exactly ([Spec.timing_exact]). *)
Record BidderRequest := {
  auctionId : value;
  bids : list value;
  auctionStart : Z;
  timeout : Z;
  gdprConsent : value
}.

(** What [buildRequests] returns: [{method, url, data}]. *)
Record ServerRequest := {
  method : string;
  url : string;
  data : object
}.

Definition isSecureWindow (env : environment) : bool :=
  String.eqb (self_protocol env) "https:".

Definition getTopWindowReferrer (env : environment) : value :=
  match document_referrer (props (top_of (window_self env))) with
  | Ret r => r
  | Throw _ => self_referrer env
  end.

(** The loop of [getMostAccessibleTopWindow] started at [res]: it climbs
    while [res] is not the top and the parent's [location.href] is readable
    and not empty; a raised access ends it. *)
Fixpoint climb (res : window) : window :=
  match res with
  | TopWindow _ => res
  | FrameWindow _ _ parent =>
      match location_href (props parent) with
      | Ret href => if Nat.eqb (String.length href) 0 then res else climb parent
      | Throw _ => res
      end
  end.

Definition getMostAccessibleTopWindow (env : environment) : window :=
  climb (window_self env).

Definition isMainPageAccessible (env : environment) : bool :=
  is_top (getMostAccessibleTopWindow env).

Fixpoint visibleInWindow (el : option element) (win : window) : result bool :=
  e <- match el with Some e => Ret e | None => Throw TypeError end ;;
  rect <- getBoundingClientRect e ;;
  inView <- (if Qle_bool 0 (top rect + height rect)
             then h <- innerHeight (props win) ;; Ret (Qle_bool (top rect) h)
             else Ret false) ;;
  match win with
  | TopWindow _ => Ret inView
  | FrameWindow _ frameElement parent =>
      if inView
      then fe <- frameElement ;; visibleInWindow fe parent
      else Ret false
  end.

(** [find], the polyfill at the end of the file, on an array. *)
Fixpoint find (o : list value) (predicate : value -> result value)
  : result value :=
  match o with
  | [] => Ret VUndef
  | kValue :: rest =>
      t <- predicate kValue ;;
      if truthy t then Ret kValue else find rest predicate
  end.

Fixpoint indexOf_from (k : Z) (l : list value) (x : value) : Z :=
  match l with
  | [] => (-1)%Z
  | y :: rest => if strict_eq y x then k else indexOf_from (k + 1)%Z rest x
  end.

Definition indexOf (l : list value) (x : value) : Z := indexOf_from 0%Z l x.

Fixpoint mapM {A B} (f : A -> result B) (l : list A) : result (list B) :=
  match l with
  | [] => Ret []
  | x :: rest => y <- f x ;; ys <- mapM f rest ;; Ret (y :: ys)
  end.

(** [validators.every(f => f(bidRequest))]. *)
Fixpoint every (fs : list (value -> eff bool)) (x : value) : eff bool :=
  match fs with
  | [] => eret true
  | f :: rest => ok <~ f x ;; if ok then every rest x else eret false
  end.

Definition isBanner (bidReq : value) : result value :=
  mediaTypes <- get bidReq "mediaTypes" ;;
  none <- (if truthy mediaTypes then Ret false
           else mediaType <- get bidReq "mediaType" ;;
                Ret (negb (truthy mediaType))) ;;
  if none then Ret (VBool true)
  else
    banner <- (if truthy mediaTypes then get mediaTypes "banner"
               else Ret mediaTypes) ;;
    if truthy banner then Ret banner
    else mediaType <- get bidReq "mediaType" ;;
         Ret (VBool (strict_eq mediaType (VStr Utils.BANNER))).

Definition bidSizes (bid : value) : result value :=
  let structured := Utils.deepAccess bid ["mediaTypes"; "banner"; "sizes"] in
  if truthy structured then Ret structured
  else legacy <- get bid "sizes" ;; Ret (or_else legacy (VArr [])).

Section WithToString.
Variable NumberToString : number -> string.

Definition elementInView (env : environment) (elementId : value) : value :=
  match visibleInWindow
          (getElementById env (ToString NumberToString elementId))
          (window_self env) with
  | Ret inView => VBool inView
  | Throw _ => VUndef
  end.

Definition buildUrl (params : value) : result string :=
  host <- get params "host" ;;
  port <- get params "port" ;;
  securePort <- get params "securePort" ;;
  path <- get params "path" ;;
  let hostname := default_to host (VStr DEFAULT_HOST) in
  let port := default_to port (VStr DEFAULT_PORT) in
  let pathname := default_to path (VStr DEFAULT_PATH) in
  let port := if truthy securePort then securePort else port in
  Ret (Utils.buildUrl NumberToString (VStr "https") hostname port pathname).

Definition createValidator (checkFn : value -> result value)
    (errorMsgFn : value -> result string) (bidRequest : value) : eff bool :=
  ok <~ lift (checkFn bidRequest) ;;
  if truthy ok then eret true
  else msg <~ lift (errorMsgFn bidRequest) ;;
       _ <~ emit (LogError ("invalid bid: " ++ msg)) ;;
       eret false.

Definition bid_request_label (bidReq : value) : result string :=
  bidId <- get bidReq "bidId" ;;
  Ret ("bid request " ++ ToString NumberToString bidId).

Definition validators : list (value -> eff bool) :=
  [ createValidator isBanner
      (fun bidReq => l <- bid_request_label bidReq ;;
                     Ret (l ++ " is not a banner"));
    createValidator
      (fun bidReq => params <- get bidReq "params" ;;
                     Ret (VBool (String.eqb (typeof params) "object")))
      (fun bidReq => l <- bid_request_label bidReq ;;
                     Ret (l ++ " does not have custom params"));
    createValidator
      (fun bidReq => params <- get bidReq "params" ;;
                     sid <- get params "sid" ;;
                     Ret (VBool (Utils.isStr sid)))
      (fun bidReq => l <- bid_request_label bidReq ;;
                     Ret (l ++ " does not have a sid string field"));
    createValidator
      (fun bidReq => params <- get bidReq "params" ;;
                     ssat <- get params "ssat" ;;
                     Ret (VBool (strict_eq ssat VUndef
                                 || (-1 <? indexOf [num 1; num 2] ssat)%Z)))
      (fun bidReq => l <- bid_request_label bidReq ;;
                     Ret (l ++ " does not have a valid ssat value (must be 1 or 2)")) ].

Definition isBidRequestValid (bidRequest : value) : eff bool :=
  every validators bidRequest.

(** One entry of [payload.bids]. *)
Definition bid_entry (env : environment) (bid : value) : result value :=
  bidId <- get bid "bidId" ;;
  params <- get bid "params" ;;
  sid <- get params "sid" ;;
  siz <- bidSizes bid ;;
  adUnitCode <- get bid "adUnitCode" ;;
  Ret (VObj [("bid", bidId); ("sid", sid); ("siz", siz);
             ("viz", elementInView env adUnitCode)]).

Definition buildRequests (env : environment) (validBidRequests : list value)
    (bidderRequest : BidderRequest) : result ServerRequest :=
  let anyBid := nth 0 (bids bidderRequest) VUndef in
  bidRequestWithSsat <-
    find validBidRequests
      (fun bidRequest => params <- get bidRequest "params" ;; get params "ssat") ;;
  bidRequestWithYl2 <-
    find validBidRequests
      (fun bidRequest => params <- get bidRequest "params" ;; get params "yl2") ;;
  ssat <- (if truthy bidRequestWithSsat
           then params <- get bidRequestWithSsat "params" ;; get params "ssat"
           else Ret (num 2)) ;;
  yl2 <- (if truthy bidRequestWithYl2
          then params <- get bidRequestWithYl2 "params" ;; get params "yl2"
          else stored <- localStorage_sdgYieldtest env ;;
               Ret (VBool (strict_eq stored (VStr "1")))) ;;
  let payload : object :=
    [ ("id", auctionId bidderRequest);
      ("bids", VArr []);
      ("ref", getTopWindowReferrer env);
      ("ssl", VBool (isSecureWindow env));
      ("mpa", VBool (isMainPageAccessible env));
      ("timeout", num (timeout bidderRequest
                       - (Date_now env - auctionStart bidderRequest)));
      ("ssat", ssat);
      ("yl2", yl2);
      ("ab", yieldlove_ab env) ] in
  userIds <- get anyBid "userId" ;;
  let payload :=
    if negb (Utils.isEmpty userIds)
    then set_prop payload "user" (VObj [("euids", userIds)])
    else payload in
  let gdprConsent := gdprConsent bidderRequest in
  gdpr <- (if truthy gdprConsent
           then consentString <- get gdprConsent "consentString" ;;
                if negb (nullish consentString)
                then gdprApplies <- get gdprConsent "gdprApplies" ;;
                     Ret (if negb (nullish gdprApplies)
                          then Some (VObj [("consent", consentString);
                                           ("applies", gdprApplies)])
                          else None)
                else Ret None
           else Ret None) ;;
  let payload :=
    match gdpr with
    | Some g => set_prop payload "gdpr" g
    | None => payload
    end in
  entries <- mapM (bid_entry env) validBidRequests ;;
  let payload := set_prop payload "bids" (VArr entries) in
  params <- get anyBid "params" ;;
  endpoint <- buildUrl params ;;
  Ret {| method := "POST"; url := endpoint; data := payload |}.

End WithToString.

(** The bid built for one entry of the response, before any merge. *)
Definition standard_bid (bidResponse : value) : result object :=
  cpm <- get bidResponse "cpm" ;;
  let cpm := or_else cpm (num 0) in
  bidId <- get bidResponse "bidId" ;;
  width <- get bidResponse "width" ;;
  height <- get bidResponse "height" ;;
  ad <- get bidResponse "ad" ;;
  Ret [ ("requestId", bidId);
        ("cpm", cpm);
        ("width", or_else width (num 0));
        ("height", or_else height (num 0));
        ("ad", ad);
        ("ttl", num 300);
        ("currency", VStr "EUR");
        ("netRevenue", VBool true);
        ("creativeId", VStr "") ].

(** The body of the [forEach] callback: the bid pushed for one entry. *)
Definition normalized_bid (bidResponse : value) : result value :=
  bid <- standard_bid bidResponse ;;
  bidPriceOptimisation <- get bidResponse "bidPriceOptimisation" ;;
  if truthy bidPriceOptimisation
  then Ret (VObj (Object_assign bid bidPriceOptimisation))
  else Ret (VObj bid).

(** [x.forEach(f)] collecting what [f] pushes; only an array has
    [forEach]. *)
Definition forEach_push (x : value) (f : value -> result value)
  : result (list value) :=
  match x with
  | VArr l => mapM f l
  | _ => Throw TypeError
  end.

Definition interpretResponse (serverResponse : value) : eff (list value) :=
  body <~ lift (get serverResponse "body") ;;
  if truthy body && String.eqb (typeof body) "object"
  then
    tep <~ lift (get body "tep") ;;
    _ <~ (if truthy tep then emit (Ajax tep) else eret tt) ;;
    responseBids <~ lift (get body "bids") ;;
    lift (forEach_push responseBids normalized_bid)
  else eret [].

(** The descriptor [getUserSyncs] hands out. *)
Definition sync_descriptor : value :=
  VObj [("type", VStr "iframe");
        ("url", VStr "https://js.adscale.de/pbsync.html")].

Definition getUserSyncs (syncOptions : value) (serverResponses : list value)
  : result (list value) :=
  enabled <- (if (0 <? Z.of_nat (length serverResponses))%Z
              then get syncOptions "iframeEnabled"
              else Ret (VBool false)) ;;
  if truthy enabled then Ret [sync_descriptor] else Ret [].

End StroeerCore.

Import StroeerCore.

(* ================================================================== *)
(** * Vocabulary of the properties *)
(* ================================================================== *)

Module Spec.

(** [b.params.k] where both reads succeed, [undefined] otherwise. *)
Definition param_of (b : value) (k : string) : value :=
  match b with
  | VObj o => match prop o "params" with
              | VObj p => prop p k
              | _ => VUndef
              end
  | _ => VUndef
  end.

(** The value of parameter [k] in the first request, in order, that sets
    it explicitly (to anything but [undefined]). *)
Fixpoint first_explicit (k : string) (l : list value) : option value :=
  match l with
  | [] => None
  | b :: rest =>
      match param_of b k with
      | VUndef => first_explicit k rest
      | v => Some v
      end
  end.

(** The value of parameter [k] in the first request, in order, where it is
    truthy. *)
Fixpoint first_truthy (k : string) (l : list value) : option value :=
  match l with
  | [] => None
  | b :: rest =>
      if truthy (param_of b k) then Some (param_of b k)
      else first_truthy k rest
  end.

(** A parameter resolved over the batch: the first truthy value, else the
    fallback. *)
Definition resolved (k : string) (l : list value) (fallback : value) : value :=
  match first_truthy k l with
  | Some v => v
  | None => fallback
  end.

(** The persisted test flag: the stored string is ["1"]. *)
Definition stored_flag (env : environment) : bool :=
  match localStorage_sdgYieldtest env with
  | Ret stored => strict_eq stored (VStr "1")
  | Throw _ => false
  end.

(** [v.k] read safely: [undefined] when [v] is not an object. *)
Definition field (v : value) (k : string) : value :=
  match v with
  | VObj o => prop o k
  | _ => VUndef
  end.

(** The [gdpr] object of the payload: present when both fields of the
    consent object are neither [null] nor [undefined]. *)
Definition gdpr_object (g : value) : option value :=
  if negb (nullish (field g "consentString")) &&
     negb (nullish (field g "gdprApplies"))
  then Some (VObj [("consent", field g "consentString");
                   ("applies", field g "gdprApplies")])
  else None.

(** A request from which [buildRequests] can read what it needs: an object
    whose [params] is neither [null] nor [undefined]. *)
Definition readable_request (b : value) : bool :=
  match b with
  | VObj o => negb (nullish (prop o "params"))
  | _ => false
  end.

(** The first bid of the batch is an object with [params]. *)
Definition readable_first (l : list value) : bool :=
  match l with
  | VObj o :: _ => negb (nullish (prop o "params"))
  | _ => false
  end.

Definition storage_readable (env : environment) : bool :=
  match localStorage_sdgYieldtest env with
  | Ret _ => true
  | Throw _ => false
  end.

(** The precondition of [buildRequests]. *)
Definition batch_ready (env : environment) (validBidRequests : list value)
    (bidderRequest : BidderRequest) : bool :=
  forallb readable_request validBidRequests &&
  readable_first (bids bidderRequest) &&
  storage_readable env.

(** An integer a double holds exactly, as every integer of magnitude at
    most 2^53 is. *)
Definition safe_integer (z : Z) : bool := (Z.abs z <=? 2 ^ 53)%Z.

(** The operands of the timeout computation, the elapsed time and the
    remaining time are all integers a double holds exactly, so that the two
    double subtractions of [buildRequests] are exact. *)
Definition timing_exact (env : environment) (bidderRequest : BidderRequest)
  : bool :=
  safe_integer (timeout bidderRequest) &&
  safe_integer (auctionStart bidderRequest) &&
  safe_integer (Date_now env) &&
  safe_integer (Date_now env - auctionStart bidderRequest) &&
  safe_integer (timeout bidderRequest
                - (Date_now env - auctionStart bidderRequest)).

(** One level of [visibleInWindow]: the [inView] test of the element's
    rectangle against the height of the window with properties [w]. *)
Definition level (el : option element) (w : win_props) : result bool :=
  e <- match el with Some e => Ret e | None => Throw TypeError end ;;
  rect <- getBoundingClientRect e ;;
  if Qle_bool 0 (top rect + height rect)
  then h <- innerHeight w ;; Ret (Qle_bool (top rect) h)
  else Ret false.

(** The rectangle reaches into the vertical extent [0 .. h] of a viewport. *)
Definition overlaps (r : rect) (h : Q) : Prop :=
  (0 <= top r + height r)%Q /\ (top r <= h)%Q.

(** [el] overlaps the viewport of [win], and so does every frame element
    above it in its own parent, up to the top. *)
Inductive in_view_chain : element -> window -> Prop :=
| in_view_top e w r h :
    getBoundingClientRect e = Ret r ->
    innerHeight w = Ret h ->
    overlaps r h ->
    in_view_chain e (TopWindow w)
| in_view_frame e w fe parent r h :
    getBoundingClientRect e = Ret r ->
    innerHeight w = Ret h ->
    overlaps r h ->
    in_view_chain fe parent ->
    in_view_chain e (FrameWindow w (Ret (Some fe)) parent).

(** The walk up the chain from [el] in [win] meets an element that is not
    there or an access that raises. *)
Inductive walk_raises : option element -> window -> Prop :=
| raises_unresolved win :
    walk_raises None win
| raises_rect e win x :
    getBoundingClientRect e = Throw x ->
    walk_raises (Some e) win
| raises_innerHeight e win r x :
    getBoundingClientRect e = Ret r ->
    (0 <= top r + height r)%Q ->
    innerHeight (props win) = Throw x ->
    walk_raises (Some e) win
| raises_frameElement e w parent r h x :
    getBoundingClientRect e = Ret r ->
    innerHeight w = Ret h ->
    overlaps r h ->
    walk_raises (Some e) (FrameWindow w (Throw x) parent)
| raises_above e w fe parent r h :
    getBoundingClientRect e = Ret r ->
    innerHeight w = Ret h ->
    overlaps r h ->
    walk_raises fe parent ->
    walk_raises (Some e) (FrameWindow w (Ret fe) parent).

(** The standard fields of a normalized bid for the response entry [e]:
    [cpm], [width] and [height] fall back to 0, the rest is fixed. *)
Definition standard_fields (e : value) : object :=
  [ ("requestId", field e "bidId");
    ("cpm", or_else (field e "cpm") (num 0));
    ("width", or_else (field e "width") (num 0));
    ("height", or_else (field e "height") (num 0));
    ("ad", field e "ad");
    ("ttl", num 300);
    ("currency", VStr "EUR");
    ("netRevenue", VBool true);
    ("creativeId", VStr "") ].

(** The price-optimisation fields of the response entry [e] that get
    merged: those of [e.bidPriceOptimisation] when it is truthy. *)
Definition merged_fields (e : value) : object :=
  if truthy (field e "bidPriceOptimisation")
  then own_props (field e "bidPriceOptimisation")
  else [].

(** Number::toString on the integers and [NaN]; the examples print no other
    number. *)
Definition integer_toString (n : number) : string :=
  match n with
  | NaN => "NaN"
  | Fin q => NilEmpty.string_of_int (Z.to_int (Qnum q / Zpos (Qden q)))
  end.

End Spec.

(* ================================================================== *)
(** * Sample data (the fixtures of the adapter's test suite) *)
(* ================================================================== *)

Module Samples.

Definition sizes (l : list (Z * Z)) : value :=
  VArr (map (fun wh => VArr [num (fst wh); num (snd wh)]) l).

Definition userIds : value :=
  VObj [("criteoId", VStr "criteo-user-id");
        ("lipb", VObj [("lipbid", VStr "T7JiRRvsRAmh88");
                       ("segments", VArr [VStr "999"])])].

Definition bid (bidId adUnitCode : string) (siz : value) (params : value)
  : value :=
  VObj [("bidId", VStr bidId);
        ("bidder", VStr "stroeerCore");
        ("adUnitCode", VStr adUnitCode);
        ("mediaTypes", VObj [("banner", VObj [("sizes", siz)])]);
        ("params", params);
        ("userId", userIds)].

Definition bid1 : value :=
  bid "bid1" "div-1" (sizes [(300, 600); (160, 60)]%Z)
      (VObj [("sid", VStr "NDA=")]).

Definition bid2 : value :=
  bid "bid2" "div-2" (sizes [(728, 90)]%Z) (VObj [("sid", VStr "ODA=")]).

Definition bid2_ssat1 : value :=
  bid "bid2" "div-2" (sizes [(728, 90)]%Z)
      (VObj [("sid", VStr "ODA="); ("ssat", num 1)]).

Definition bid3_ssat2 : value :=
  bid "bid3" "div-1" (sizes [(300, 600); (160, 60)]%Z)
      (VObj [("sid", VStr "NDA="); ("ssat", num 2)]).

Definition bid1_yl2_false : value :=
  bid "bid1" "div-1" (sizes [(300, 600); (160, 60)]%Z)
      (VObj [("sid", VStr "NDA="); ("yl2", VBool false)]).


Definition bidderRequest (bs : list value) (consent : value) : BidderRequest :=
  {| auctionId := VStr "auction-1";
     bids := bs;
     auctionStart := 10000;
     timeout := 5000;
     gdprConsent := consent |}.

Definition createElement (offsetTop : Z) : element :=
  {| getBoundingClientRect :=
       Ret {| top := inject_Z offsetTop; height := inject_Z 1 |} |}.

Definition createWindow (href : string) (referrer : value) (h : Z)
  : win_props :=
  {| innerHeight := Ret (inject_Z h);
     location_href := Ret href;
     document_referrer := Ret referrer |}.

(** A window of another origin: every read raises. *)
Definition foreignWindow : win_props :=
  {| innerHeight := Throw SecurityError;
     location_href := Throw SecurityError;
     document_referrer := Throw SecurityError |}.

(** [setupNestedWindows]: the current window in a frame of a frame. *)
Definition nestedWindows : window :=
  FrameWindow (createWindow "http://www.xyz.com/" VUndef 200)
    (Ret (Some (createElement 304)))
    (FrameWindow (createWindow "http://www.abc.org/" VUndef 400)
       (Ret (Some (createElement 0)))
       (TopWindow (createWindow "http://www.abc.org/"
                     (VStr "http://www.google.com/?query=monkey") 800))).

Definition placementElements (id : string) : option element :=
  if String.eqb id "div-1" then Some (createElement 17)
  else if String.eqb id "div-2" then Some (createElement 54)
  else None.

Definition browser (win : window) (protocol : string) (stored : value)
  : environment :=
  {| window_self := win;
     self_protocol := protocol;
     self_referrer := VUndef;
     getElementById := placementElements;
     Date_now := 13500;
     localStorage_sdgYieldtest := Ret stored;
     yieldlove_ab := VUndef |}.

(** The page of the test suite, nothing stored. *)
Definition testBrowser : environment := browser nestedWindows "http:" VUndef.

(** The same page once the auction has run well past its timeout. *)
Definition lateBrowser : environment :=
  {| window_self := nestedWindows;
     self_protocol := "http:";
     self_referrer := VUndef;
     getElementById := placementElements;
     Date_now := 20000;
     localStorage_sdgYieldtest := Ret VUndef;
     yieldlove_ab := VUndef |}.

(** The same page with the test flag stored. *)
Definition flaggedBrowser : environment :=
  browser nestedWindows "http:" (VStr "1").

Definition twoBids : list value := [bid1; bid2].

(** Only the second of three requests sets [ssat] to 1; the third sets 2. *)
Definition ssatBids : list value := [bid1; bid2_ssat1; bid3_ssat2].

(** The current window framed by a page of another origin. *)
Definition foreignParent : window :=
  FrameWindow (createWindow "http://www.xyz.com/" VUndef 200)
    (Ret None) (TopWindow foreignWindow).

Definition consent (consentString gdprApplies : value) : value :=
  VObj [("consentString", consentString); ("gdprApplies", gdprApplies)].

Definition refusedConsent : value :=
  consent (VStr "UGluZyBQb25n") (VBool false).



(** [bid1] asking for an [ssat] the validator would refuse. *)
Definition bid1_ssat99 : value :=
  bid "bid1" "div-1" (sizes [(300, 600); (160, 60)]%Z)
      (VObj [("sid", VStr "NDA="); ("ssat", num 99)]).

(** [bid1] as Prebid before version 3 hands it over: flat [sizes] and a
    [mediaType], no [mediaTypes]. *)
Definition bid1_legacy : value :=
  VObj [("bidId", VStr "bid1");
        ("bidder", VStr "stroeerCore");
        ("adUnitCode", VStr "div-1");
        ("sizes", sizes [(300, 600); (160, 60)]%Z);
        ("mediaType", VStr "banner");
        ("params", VObj [("sid", VStr "NDA=")])].




(** [buildBidderResponseWithTep], its bids replaced by the legacy
    redirect. *)
Definition legacyRedirectWithTep : value :=
  VObj [("body",
         VObj [("tep", VStr "//hb.adscale.de/sspReqId/5f465360/39000");
               ("redirect", VStr "http://somewhere.com/over")])].

(** The current window inside a frame that hides it, under a page of
    another origin. *)
Definition belowTheFold : option element := Some (createElement 500).



End Samples.

(* ================================================================== *)
(** * Vocabulary of the further properties *)
(* ================================================================== *)

Module Further.

Import Spec.

(** The banner rule on the properties of a request. *)
Definition banner_ok (o : object) : bool :=
  (negb (truthy (prop o "mediaTypes")) && negb (truthy (prop o "mediaType")))
  || (truthy (prop o "mediaTypes") &&
      truthy (field (prop o "mediaTypes") "banner"))
  || strict_eq (prop o "mediaType") (VStr "banner").

(** The [ssat] rule: absent, 1 or 2. *)
Definition ssat_ok (ssat : value) : bool :=
  strict_eq ssat VUndef || strict_eq (num 1) ssat || strict_eq (num 2) ssat.

(** The three shapes a validation can end in: accepted in silence,
    rejected with one logged reason, or raised in silence. *)
Definition tidy (r : eff bool) : Prop :=
  match r with
  | ([], Ret true) => True
  | ([LogError msg], Ret false) =>
      exists reason, msg = "invalid bid: " ++ reason
  | ([], Throw _) => True
  | _ => False
  end.

(** Every window above [win] lets its [location.href] be read, and it is
    not empty. *)
Fixpoint ancestors_readable (win : window) : bool :=
  match win with
  | TopWindow _ => true
  | FrameWindow _ _ parent =>
      match location_href (props parent) with
      | Ret href => negb (Nat.eqb (String.length href) 0)
                    && ancestors_readable parent
      | Throw _ => false
      end
  end.

(** The parent of [win] cannot be entered: its [location.href] raises or is
    empty. *)
Definition blocked (win : window) : bool :=
  match win with
  | TopWindow _ => false
  | FrameWindow _ _ parent =>
      match location_href (props parent) with
      | Ret href => Nat.eqb (String.length href) 0
      | Throw _ => true
      end
  end.

(** The properties every payload starts with, in order. *)
Definition base_keys : list string :=
  ["id"; "bids"; "ref"; "ssl"; "mpa"; "timeout"; "ssat"; "yl2"; "ab"].


(** [p] answers on [x] with a falsy value. *)
Definition falsy_at (p : value -> result value) (x : value) : Prop :=
  exists t, p x = Ret t /\ truthy t = false.

(** The sizes [bidSizes] settles on: the structured ones, else the legacy
    ones, else none. *)
Definition sizes_of (o : object) : value :=
  let structured :=
    field (field (field (VObj o) "mediaTypes") "banner") "sizes" in
  if truthy structured then structured
  else if truthy (prop o "sizes") then prop o "sizes"
  else VArr [].

(** A request read as [payload.bids] reads it. *)
Definition entry_of (nts : number -> string) (env : environment)
    (b : value) : value :=
  VObj [("bid", field b "bidId");
        ("sid", param_of b "sid");
        ("siz", match b with VObj o => sizes_of o | _ => VArr [] end);
        ("viz", elementInView nts env (field b "adUnitCode"))].

(** The payload as the object literal of [buildRequests] creates it. *)
Definition base_payload (env : environment) (br : BidderRequest)
    (ssat yl2 : value) : object :=
  [ ("id", auctionId br);
    ("bids", VArr []);
    ("ref", getTopWindowReferrer env);
    ("ssl", VBool (isSecureWindow env));
    ("mpa", VBool (isMainPageAccessible env));
    ("timeout", num (timeout br - (Date_now env - auctionStart br)));
    ("ssat", ssat);
    ("yl2", yl2);
    ("ab", yieldlove_ab env) ].

(** The payload once [user], [gdpr] and the entries are in. *)
Definition finished_payload (base : object) (userIds : value)
    (gdpr : option value) (entries : list value) : object :=
  let with_user :=
    if negb (Utils.isEmpty userIds)
    then set_prop base "user" (VObj [("euids", userIds)])
    else base in
  let with_gdpr :=
    match gdpr with
    | Some g => set_prop with_user "gdpr" g
    | None => with_user
    end in
  set_prop with_gdpr "bids" (VArr entries).

(** A request whose [params] can be read. *)
Definition has_params (b : value) : Prop :=
  exists o, b = VObj o /\ nullish (prop o "params") = false.

End Further.

Import Spec.
Import Further.

(* ================================================================== *)
(** * Properties *)
(* ================================================================== *)

(** ** The monads *)

Lemma bind_Ret_inv {A B} (c : result A) (k : A -> result B) (b : B) :
  bind c k = Ret b -> exists a, c = Ret a /\ k a = Ret b.
Proof.
  destruct c as [a|e]; simpl; intro H; [eauto | discriminate].
Qed.

Lemma get_VObj (o : object) (k : string) : get (VObj o) k = Ret (prop o k).
Proof. reflexivity. Qed.

Lemma get_not_nullish (v : value) (k : string) :
  nullish v = false -> exists x, get v k = Ret x.
Proof. destruct v; simpl; intro H; try discriminate; eauto. Qed.

Lemma truthy_not_nullish (v : value) : truthy v = true -> nullish v = false.
Proof. destruct v; simpl; congruence. Qed.

(** ** Validation *)

Lemma snd_ebind {A B} (c : eff A) (k : A -> eff B) :
  snd (ebind c k) =
  match snd c with
  | Ret a => snd (k a)
  | Throw e => Throw e
  end.
Proof.
  destruct c as [tr [a|e]]; simpl; [destruct (k a) |]; reflexivity.
Qed.

Lemma snd_every_cons (f : value -> eff bool) (rest : list (value -> eff bool))
    (x : value) :
  snd (every (f :: rest) x) =
  match snd (f x) with
  | Ret true => snd (every rest x)
  | Ret false => Ret false
  | Throw e => Throw e
  end.
Proof.
  simpl every. rewrite snd_ebind.
  destruct (snd (f x)) as [[|]|e]; reflexivity.
Qed.

Lemma snd_createValidator (checkFn : value -> result value)
    (errorMsgFn : value -> result string) (x : value) :
  snd (createValidator checkFn errorMsgFn x) =
  match checkFn x with
  | Ret ok =>
      if truthy ok then Ret true
      else match errorMsgFn x with
           | Ret _ => Ret false
           | Throw e => Throw e
           end
  | Throw e => Throw e
  end.
Proof.
  unfold createValidator, lift.
  destruct (checkFn x) as [ok|e]; [|reflexivity].
  rewrite snd_ebind. cbn [snd].
  destruct (truthy ok); [reflexivity|].
  destruct (errorMsgFn x); reflexivity.
Qed.

Lemma ebind_Ret_nil {A B} (a : A) (k : A -> eff B) :
  ebind ([], Ret a) k = k a.
Proof. cbn [ebind]. now destruct (k a). Qed.

Lemma createValidator_passes (checkFn : value -> result value)
    (errorMsgFn : value -> result string) (x ok : value) :
  checkFn x = Ret ok -> truthy ok = true ->
  createValidator checkFn errorMsgFn x = ([], Ret true).
Proof.
  intros Hc Ht. unfold createValidator, lift.
  rewrite Hc, ebind_Ret_nil, Ht. reflexivity.
Qed.

Lemma createValidator_raises (checkFn : value -> result value)
    (errorMsgFn : value -> result string) (x : value) (e : exn) :
  checkFn x = Throw e ->
  createValidator checkFn errorMsgFn x = ([], Throw e).
Proof. intros Hc. unfold createValidator, lift. now rewrite Hc. Qed.

Lemma isBanner_object (o : object) : exists v, isBanner (VObj o) = Ret v.
Proof.
  unfold isBanner. rewrite get_VObj. simpl.
  destruct (truthy (prop o "mediaTypes")) eqn:Hmt; simpl.
  - destruct (get_not_nullish (prop o "mediaTypes") "banner"
                (truthy_not_nullish _ Hmt)) as [b Hb].
    rewrite Hb. simpl. destruct (truthy b); eauto.
  - destruct (truthy (prop o "mediaType")); simpl; eauto.
    rewrite Hmt. eauto.
Qed.

(** A request whose [params] is anything but an object or [null] is
    rejected. *)
Lemma isBidRequestValid_rejects_non_object_params
    (nts : number -> string) (o : object) :
  typeof (prop o "params") <> "object" ->
  snd (isBidRequestValid nts (VObj o)) = Ret false.
Proof.
  intro Hty.
  assert (Hneq : String.eqb (typeof (prop o "params")) "object" = false).
  { apply String.eqb_neq. exact Hty. }
  unfold isBidRequestValid, validators.
  rewrite snd_every_cons, snd_createValidator.
  destruct (isBanner_object o) as [v Hv]. rewrite Hv.
  unfold bid_request_label. rewrite get_VObj. simpl bind.
  destruct (truthy v); [|reflexivity].
  rewrite snd_every_cons, snd_createValidator.
  rewrite get_VObj. simpl bind. simpl truthy. rewrite Hneq. reflexivity.
Qed.

(** C2, where the code departs from it: a request that passes the banner
    rule and whose [params] is [null] is not rejected.  The check
    [typeof params === 'object'] lets [null] through and the next validator
    raises a [TypeError] while reading [params.sid]; nothing is logged and
    no boolean is returned. *)
Theorem isBidRequestValid_null_params_raises
    (nts : number -> string) (o : object) (v : value) :
  isBanner (VObj o) = Ret v -> truthy v = true ->
  prop o "params" = VNull ->
  isBidRequestValid nts (VObj o) = ([], Throw TypeError).
Proof.
  intros Hv Ht Hp.
  unfold isBidRequestValid, validators. cbn [every].
  rewrite (createValidator_passes _ _ _ v Hv Ht), ebind_Ret_nil.
  rewrite (createValidator_passes _ _ _ (VBool true)), ebind_Ret_nil;
    [| now rewrite get_VObj, Hp | reflexivity].
  rewrite (createValidator_raises _ _ _ TypeError);
    [reflexivity | now rewrite get_VObj, Hp].
Qed.

Lemma typeof_object (v : value) :
  String.eqb (typeof v) "object" =
  match v with VNull | VArr _ | VObj _ => true | _ => false end.
Proof. destruct v; reflexivity. Qed.

(** What an accepted request looks like. *)
Lemma isBidRequestValid_accepts_inv (nts : number -> string) (b : value) :
  snd (isBidRequestValid nts b) = Ret true ->
  exists o p s,
    b = VObj o /\ prop o "params" = VObj p /\ prop p "sid" = VStr s /\
    (prop p "ssat" = VUndef \/
     strict_eq (num 1) (prop p "ssat") = true \/
     strict_eq (num 2) (prop p "ssat") = true).
Proof.
  intro H.
  destruct b as [| |x|n|s|l|o]; try discriminate H.
  unfold isBidRequestValid, validators in H.
  rewrite snd_every_cons, snd_createValidator in H.
  destruct (isBanner_object o) as [v Hv]. rewrite Hv in H.
  unfold bid_request_label in H. rewrite get_VObj in H. simpl bind in H.
  destruct (truthy v); [|discriminate H].
  rewrite snd_every_cons, snd_createValidator, get_VObj in H.
  simpl bind in H. simpl truthy in H. rewrite typeof_object in H.
  rewrite snd_every_cons, snd_createValidator, get_VObj in H.
  rewrite snd_every_cons, snd_createValidator, get_VObj in H.
  destruct (prop o "params") as [| |x|n|s|l|p] eqn:Hp;
    try discriminate H.
  simpl bind in H. simpl truthy in H. cbv iota in H.
  destruct (prop p "sid") as [| |x|n|s|l|q] eqn:Hs; try discriminate H.
  simpl Utils.isStr in H. cbv iota in H.
  exists o, p, s. repeat split; auto.
  rewrite Hp, get_VObj in H. simpl in H.
  destruct (prop p "ssat") as [| |x|[|q]|s'|l|q] eqn:Hq; auto;
    right; try discriminate H.
  unfold indexOf in H. cbn [indexOf_from strict_eq num orb] in H.
  cbn [strict_eq num].
  destruct (Qeq_bool (inject_Z 1) q); [now left|].
  destruct (Qeq_bool (inject_Z 2) q); [now right|].
  discriminate H.
Qed.

Lemma strict_eq_int_truthy (z : Z) (v : value) :
  z <> 0%Z -> strict_eq (num z) v = true -> truthy v = true.
Proof.
  intros Hz H. destruct v as [| |x|[|q]|s|l|o]; try discriminate H.
  simpl in *. apply Qeq_bool_iff in H.
  destruct (Qeq_bool q 0) eqn:E; [|reflexivity].
  apply Qeq_bool_iff in E. rewrite E in H.
  exfalso. apply Hz. unfold Qeq in H. simpl in H. lia.
Qed.

(** On an accepted request an explicit [ssat] is truthy, which is what the
    search of [buildRequests] looks for. *)
Lemma accepted_ssat_truthy (nts : number -> string) (b : value) :
  snd (isBidRequestValid nts b) = Ret true ->
  truthy (param_of b "ssat") =
  match param_of b "ssat" with VUndef => false | _ => true end.
Proof.
  intro H.
  destruct (isBidRequestValid_accepts_inv nts b H)
    as (o & p & s & -> & Hp & _ & Hssat).
  unfold param_of. rewrite Hp.
  destruct Hssat as [E | [E | E]].
  - rewrite E. reflexivity.
  - pose proof (strict_eq_int_truthy 1 _ ltac:(lia) E) as T. rewrite T.
    destruct (prop p "ssat"); try reflexivity; discriminate T.
  - pose proof (strict_eq_int_truthy 2 _ ltac:(lia) E) as T. rewrite T.
    destruct (prop p "ssat"); try reflexivity; discriminate T.
Qed.

(** ** Objects *)

Lemma prop_set_prop (o : object) (k k' : string) (v : value) :
  prop (set_prop o k v) k' = if String.eqb k' k then v else prop o k'.
Proof.
  unfold prop. induction o as [|[k0 v0] r IH]; simpl.
  - destruct (String.eqb k' k); reflexivity.
  - destruct (String.eqb k k0) eqn:E; simpl.
    + apply String.eqb_eq in E. subst k0.
      destruct (String.eqb k' k); reflexivity.
    + destruct (String.eqb k' k0) eqn:E'.
      * apply String.eqb_eq in E'. subst k0.
        rewrite String.eqb_sym, E. reflexivity.
      * exact IH.
Qed.



(** ** Response interpretation *)

Lemma get_field (v : value) (k : string) :
  nullish v = false -> get v k = Ret (field v k).
Proof. destruct v; simpl; intro H; try discriminate; reflexivity. Qed.

Lemma normalized_bid_fields (e : value) :
  nullish e = false ->
  normalized_bid e =
  Ret (VObj (fold_left (fun t kv => set_prop t (fst kv) (snd kv))
               (merged_fields e) (standard_fields e))).
Proof.
  intro H. unfold normalized_bid, standard_bid, merged_fields.
  rewrite !(get_field e) by exact H. cbn [bind].
  destruct (truthy (field e "bidPriceOptimisation")); reflexivity.
Qed.

Lemma snd_interpretResponse_object (sr : value) (b : object) :
  get sr "body" = Ret (VObj b) ->
  snd (interpretResponse sr) = forEach_push (prop b "bids") normalized_bid.
Proof.
  intro H. unfold interpretResponse. rewrite H. unfold lift.
  rewrite snd_ebind. cbn [snd truthy typeof andb String.eqb Ascii.eqb Bool.eqb].
  rewrite snd_ebind. cbn [snd get].
  rewrite snd_ebind.
  destruct (truthy (prop b "tep")); reflexivity.
Qed.

(** C8: a response whose body is absent, empty or not an object yields no
    bids: [interpretResponse] returns the empty list, raises nothing and
    fires no request. *)
Theorem interpretResponse_no_body (sr body : value) :
  get sr "body" = Ret body ->
  truthy body = false \/ typeof body <> "object" ->
  interpretResponse sr = ([], Ret []).
Proof.
  intros Hget Hbody. unfold interpretResponse. rewrite Hget.
  unfold lift, ebind.
  destruct Hbody as [Hf | Hty].
  - rewrite Hf. reflexivity.
  - apply String.eqb_neq in Hty. rewrite Hty, andb_false_r. reflexivity.
Qed.


(** ** Visibility *)

Lemma visibleInWindow_top (el : option element) (w : win_props) :
  visibleInWindow el (TopWindow w) = level el w.
Proof.
  unfold level. simpl.
  destruct el as [e|]; [|reflexivity]. simpl.
  destruct (getBoundingClientRect e) as [r|x]; [|reflexivity]. simpl.
  destruct (Qle_bool 0 (top r + height r)); [|reflexivity].
  destruct (innerHeight w); reflexivity.
Qed.

Lemma visibleInWindow_frame (el : option element) (w : win_props)
    (frameElement : result (option element)) (parent : window) :
  visibleInWindow el (FrameWindow w frameElement parent) =
  (inView <- level el w ;;
   if inView then fe <- frameElement ;; visibleInWindow fe parent
   else Ret false).
Proof.
  unfold level. simpl.
  destruct el as [e|]; [|reflexivity]. simpl.
  destruct (getBoundingClientRect e) as [r|x]; [|reflexivity]. simpl.
  destruct (Qle_bool 0 (top r + height r)); [|reflexivity].
  destruct (innerHeight w); reflexivity.
Qed.

Lemma level_true (el : option element) (w : win_props) :
  level el w = Ret true <->
  exists e r h, el = Some e /\ getBoundingClientRect e = Ret r /\
                innerHeight w = Ret h /\ overlaps r h.
Proof.
  unfold level, overlaps. split.
  - destruct el as [e|]; [|discriminate]. simpl.
    destruct (getBoundingClientRect e) as [r|x] eqn:Hr; [|discriminate]. simpl.
    destruct (Qle_bool 0 (top r + height r)) eqn:E1; [|discriminate].
    destruct (innerHeight w) as [h|x] eqn:Hh; [|discriminate]. simpl.
    intro H. injection H as E2.
    apply Qle_bool_iff in E1, E2. exists e, r, h. auto.
  - intros (e & r & h & -> & Hr & Hh & H1 & H2). simpl.
    rewrite Hr. simpl.
    apply Qle_bool_iff in H1, H2. rewrite H1, Hh. simpl. now rewrite H2.
Qed.

Lemma level_raises (el : option element) (w : win_props) :
  (exists x, level el w = Throw x) <->
  el = None \/
  (exists e x, el = Some e /\ getBoundingClientRect e = Throw x) \/
  (exists e r x, el = Some e /\ getBoundingClientRect e = Ret r /\
                 (0 <= top r + height r)%Q /\ innerHeight w = Throw x).
Proof.
  unfold level. split.
  - intros [x H]. destruct el as [e|]; [|now left]. right. simpl in H.
    destruct (getBoundingClientRect e) as [r|y] eqn:Hr; [|left; eauto].
    simpl in H.
    destruct (Qle_bool 0 (top r + height r)) eqn:E1; [|discriminate].
    destruct (innerHeight w) as [h|y] eqn:Hh; [discriminate|].
    apply Qle_bool_iff in E1. right. exists e, r, y. auto.
  - intros [-> | [(e & x & -> & Hr) | (e & r & x & -> & Hr & H1 & Hh)]];
      simpl.
    + eauto.
    + rewrite Hr. simpl. eauto.
    + rewrite Hr. simpl. apply Qle_bool_iff in H1. rewrite H1, Hh. simpl.
      eauto.
Qed.

Lemma visibleInWindow_true (win : window) (el : option element) :
  visibleInWindow el win = Ret true <->
  exists e, el = Some e /\ in_view_chain e win.
Proof.
  revert el. induction win as [w | w fe parent IH]; intro el.
  - rewrite visibleInWindow_top, level_true. split.
    + intros (e & r & h & -> & Hr & Hh & Ho). exists e. split; [reflexivity|].
      econstructor; eassumption.
    + intros (e & -> & Hc). inversion Hc; subst. eauto 8.
  - rewrite visibleInWindow_frame. split.
    + intro H. apply bind_Ret_inv in H. destruct H as (inView & Hl & H).
      destruct inView; [|discriminate].
      apply bind_Ret_inv in H. destruct H as (f & -> & H).
      apply IH in H. destruct H as (e' & -> & Hc').
      apply level_true in Hl. destruct Hl as (e & r & h & -> & Hr & Hh & Ho).
      exists e. split; [reflexivity|]. econstructor; eassumption.
    + intros (e & -> & Hc). inversion Hc; subst.
      assert (Hl : level (Some e) w = Ret true) by (apply level_true; eauto 8).
      rewrite Hl. simpl. apply IH. eauto.
Qed.

Lemma visibleInWindow_raises (win : window) (el : option element) :
  (exists x, visibleInWindow el win = Throw x) <-> walk_raises el win.
Proof.
  revert el. induction win as [w | w fe parent IH]; intro el.
  - rewrite visibleInWindow_top, level_raises. split.
    + intros [-> | [(e & x & -> & Hr) | (e & r & x & -> & Hr & H1 & Hh)]].
      * constructor.
      * eapply raises_rect; eassumption.
      * eapply raises_innerHeight; eassumption.
    + intro H. inversion H; subst; simpl in *; eauto 10.
  - rewrite visibleInWindow_frame. split.
    + intros [x H].
      destruct (level el w) as [inView|y] eqn:Hl.
      * simpl in H. destruct inView; [|discriminate].
        apply level_true in Hl. destruct Hl as (e & r & h & -> & Hr & Hh & Ho).
        destruct fe as [f|y]; simpl in H.
        -- eapply raises_above; try eassumption. apply IH. eauto.
        -- eapply raises_frameElement; eassumption.
      * assert (Hex : exists x, level el w = Throw x) by eauto.
        apply level_raises in Hex.
        destruct Hex
          as [-> | [(e & z & -> & Hr) | (e & r & z & -> & Hr & H1 & Hh)]].
        -- constructor.
        -- eapply raises_rect; eassumption.
        -- eapply raises_innerHeight; eassumption.
    + intro H. inversion H; subst.
      * simpl. eauto.
      * assert (Hex : exists y, level (Some e) w = Throw y)
          by (apply level_raises; eauto 10).
        destruct Hex as [y Hy]. rewrite Hy. simpl. eauto.
      * assert (Hex : exists y, level (Some e) w = Throw y)
          by (apply level_raises; simpl in *; eauto 10).
        destruct Hex as [y Hy]. rewrite Hy. simpl. eauto.
      * assert (Hl : level (Some e) w = Ret true) by (apply level_true; eauto 8).
        rewrite Hl. simpl. eauto.
      * assert (Hl : level (Some e) w = Ret true) by (apply level_true; eauto 8).
        rewrite Hl. simpl. apply IH. assumption.
Qed.

(** C7: [elementInView] answers [true] only when the element is found and
    its rectangle overlaps the viewport of its window and every frame
    element above overlaps the viewport of its own parent, up to the top;
    it answers [undefined], which is neither [true] nor [false], whenever
    the element is not found or an access on the way up raises, and in no
    other case. *)
Theorem elementInView_outcomes (nts : number -> string) (env : environment)
    (elementId : value) :
  (elementInView nts env elementId = VBool true ->
   exists e, getElementById env (ToString nts elementId) = Some e /\
             in_view_chain e (window_self env)) /\
  (getElementById env (ToString nts elementId) = None ->
   elementInView nts env elementId = VUndef) /\
  (walk_raises (getElementById env (ToString nts elementId))
               (window_self env) <->
   elementInView nts env elementId = VUndef) /\
  VUndef <> VBool false.
Proof.
  unfold elementInView.
  set (el := getElementById env (ToString nts elementId)).
  repeat split.
  - destruct (visibleInWindow el (window_self env)) as [b|x] eqn:E;
      [|discriminate].
    intro H. injection H as ->. now apply visibleInWindow_true.
  - intros ->. destruct (window_self env); reflexivity.
  - intro H. apply visibleInWindow_raises in H. destruct H as [x ->].
    reflexivity.
  - intro H. apply visibleInWindow_raises.
    destruct (visibleInWindow el (window_self env)) as [b|x];
      [discriminate | eauto].
  - discriminate.
Qed.

(** ** Request building *)

Lemma readable_request_inv (b : value) :
  readable_request b = true ->
  exists o, b = VObj o /\ nullish (prop o "params") = false.
Proof.
  destruct b as [| |x|n|s|l|o]; try discriminate. simpl.
  intro H. exists o. split; [reflexivity|].
  now destruct (nullish (prop o "params")).
Qed.

Lemma read_param (b : value) (k : string) :
  readable_request b = true ->
  (params <- get b "params" ;; get params k) = Ret (param_of b k).
Proof.
  intro H. destruct (readable_request_inv b H) as (o & -> & Hp).
  rewrite get_VObj. cbn [bind]. rewrite (get_field _ k Hp).
  unfold param_of, field. destruct (prop o "params"); reflexivity.
Qed.

(** The search of [buildRequests] followed by the conditional that reads
    the parameter back. *)
Lemma find_param (k : string) (l : list value) (fallback : result value) :
  forallb readable_request l = true ->
  exists w,
    find l (fun bidRequest => params <- get bidRequest "params" ;;
                              get params k) = Ret w /\
    (if truthy w then params <- get w "params" ;; get params k
     else fallback) =
    match first_truthy k l with
    | Some v => Ret v
    | None => fallback
    end.
Proof.
  induction l as [|b rest IH]; intro H.
  - exists VUndef. split; reflexivity.
  - cbn [forallb] in H. apply andb_prop in H. destruct H as [Hb Hrest].
    cbn [find first_truthy]. rewrite (read_param b k Hb). cbn [bind].
    destruct (truthy (param_of b k)) eqn:Ht.
    + exists b. split; [reflexivity|].
      destruct (readable_request_inv b Hb) as (o & -> & _).
      cbn [truthy]. apply (read_param (VObj o) k Hb).
    + exact (IH Hrest).
Qed.

Lemma deepAccess_step_field (obj : value) (k : string) :
  Utils.deepAccess_step obj k = field obj k.
Proof.
  unfold Utils.deepAccess_step. destruct obj as [| |x|[|q]|s|l|o]; cbn;
    try reflexivity.
  - now destruct x.
  - now destruct (negb (Qeq_bool q 0)).
  - now destruct (negb (String.eqb s "")).
Qed.

Lemma deepAccess_sizes (b : value) :
  Utils.deepAccess b ["mediaTypes"; "banner"; "sizes"]
  = field (field (field b "mediaTypes") "banner") "sizes".
Proof. cbn [Utils.deepAccess]. now rewrite !deepAccess_step_field. Qed.

Lemma bidSizes_returns (b : value) :
  readable_request b = true -> exists siz, bidSizes b = Ret siz.
Proof.
  intro H. destruct (readable_request_inv b H) as (o & -> & _).
  unfold bidSizes. cbv zeta.
  destruct (truthy (Utils.deepAccess (VObj o)
                      ["mediaTypes"; "banner"; "sizes"])); [eauto|].
  rewrite get_VObj. cbn [bind]. eauto.
Qed.

Lemma bid_entry_returns (nts : number -> string) (env : environment)
    (b : value) :
  readable_request b = true -> exists e, bid_entry nts env b = Ret e.
Proof.
  intro H. destruct (bidSizes_returns b H) as [siz Hsiz].
  destruct (readable_request_inv b H) as (o & -> & Hp).
  unfold bid_entry. rewrite !get_VObj. cbn [bind].
  rewrite (get_field _ "sid" Hp). cbn [bind]. rewrite Hsiz. cbn [bind].
  eauto.
Qed.

Lemma mapM_returns {A B} (f : A -> result B) (ok : A -> bool) (l : list A) :
  (forall x, ok x = true -> exists y, f x = Ret y) ->
  forallb ok l = true ->
  exists ys, mapM f l = Ret ys /\ length ys = length l.
Proof.
  intros Hf. induction l as [|x rest IH]; intro H.
  - exists []. split; reflexivity.
  - cbn [forallb] in H. apply andb_prop in H. destruct H as [Hx Hrest].
    destruct (Hf x Hx) as [y Hy]. destruct (IH Hrest) as (ys & Hys & Hlen).
    exists (y :: ys). cbn [mapM]. rewrite Hy, Hys. cbn [bind length].
    split; [reflexivity | now rewrite Hlen].
Qed.

Lemma gdpr_stage (g : value) :
  (if truthy g
   then consentString <- get g "consentString" ;;
        if negb (nullish consentString)
        then gdprApplies <- get g "gdprApplies" ;;
             Ret (if negb (nullish gdprApplies)
                  then Some (VObj [("consent", consentString);
                                   ("applies", gdprApplies)])
                  else None)
        else Ret None
   else Ret None) = Ret (gdpr_object g).
Proof.
  unfold gdpr_object.
  destruct (truthy g) eqn:Ht.
  - rewrite !(get_field g) by (now apply truthy_not_nullish). cbn [bind].
    destruct (nullish (field g "consentString")); [reflexivity|].
    cbn [negb andb bind].
    destruct (nullish (field g "gdprApplies")); reflexivity.
  - destruct g as [| |x|n|s|l|o]; try discriminate Ht; reflexivity.
Qed.

Lemma buildUrl_returns (nts : number -> string) (params : value) :
  nullish params = false -> exists u, buildUrl nts params = Ret u.
Proof.
  intro H. unfold buildUrl. rewrite !(get_field params) by exact H.
  cbn [bind]. eauto.
Qed.

Lemma readable_first_inv (l : list value) :
  readable_first l = true ->
  exists o rest, l = VObj o :: rest /\ nullish (prop o "params") = false.
Proof.
  destruct l as [|[| |x|n|s|l'|o] rest]; try discriminate. simpl.
  intro H. exists o, rest. split; [reflexivity|].
  now destruct (nullish (prop o "params")).
Qed.

(** What [buildRequests] returns on a readable batch. *)
Lemma buildRequests_ready (nts : number -> string) (env : environment)
    (valid : list value) (br : BidderRequest) :
  batch_ready env valid br = true ->
  exists req entries,
    buildRequests nts env valid br = Ret req /\
    method req = "POST" /\
    buildUrl nts (field (nth 0 (bids br) VUndef) "params") = Ret (url req) /\
    mapM (bid_entry nts env) valid = Ret entries /\
    prop (data req) "bids" = VArr entries /\
    prop (data req) "timeout" =
      num (timeout br - (Date_now env - auctionStart br)) /\
    prop (data req) "ssat" = resolved "ssat" valid (num 2) /\
    prop (data req) "yl2" = resolved "yl2" valid (VBool (stored_flag env)) /\
    lookup "gdpr" (data req) = gdpr_object (gdprConsent br).
Proof.
  unfold batch_ready. intro H.
  apply andb_prop in H. destruct H as [H Hstore].
  apply andb_prop in H. destruct H as [Hvalid Hfirst].
  destruct (find_param "ssat" valid (Ret (num 2)) Hvalid)
    as (wS & HfS & HcS).
  destruct (find_param "yl2" valid
              (stored <- localStorage_sdgYieldtest env ;;
               Ret (VBool (strict_eq stored (VStr "1")))) Hvalid)
    as (wY & HfY & HcY).
  destruct (readable_first_inv _ Hfirst) as (o & rest & Hbids & Hp).
  destruct (buildUrl_returns nts (prop o "params") Hp) as [u Hu].
  destruct (mapM_returns (bid_entry nts env) readable_request valid
              (bid_entry_returns nts env) Hvalid) as (entries & Hent & _).
  unfold storage_readable in Hstore.
  destruct (localStorage_sdgYieldtest env) as [stored|x] eqn:Hst;
    [|discriminate Hstore].
  assert (HS : (if truthy wS
                then params <- get wS "params" ;; get params "ssat"
                else Ret (num 2)) = Ret (resolved "ssat" valid (num 2))).
  { rewrite HcS. unfold resolved. now destruct (first_truthy "ssat" valid). }
  assert (HY : (if truthy wY
                then params <- get wY "params" ;; get params "yl2"
                else stored <- Ret stored ;;
                     Ret (VBool (strict_eq stored (VStr "1")))) =
               Ret (resolved "yl2" valid (VBool (stored_flag env)))).
  { rewrite HcY. unfold resolved, stored_flag. rewrite Hst.
    now destruct (first_truthy "yl2" valid). }
  unfold buildRequests. rewrite HfS. cbn [bind]. rewrite HfY. cbn [bind].
  rewrite HS. cbn [bind]. rewrite Hst, HY. cbn [bind].
  rewrite Hbids. cbn [nth]. rewrite !get_VObj. cbn [bind].
  rewrite gdpr_stage. cbn [bind]. rewrite Hent. cbn [bind].
  rewrite Hu. cbn [bind field].
  eexists. exists entries. split; [reflexivity|].
  cbn [method url data].
  split; [reflexivity|]. split; [exact Hu|]. split; [reflexivity|].
  destruct (gdpr_object (gdprConsent br)) as [g|];
    destruct (negb (Utils.isEmpty (prop o "userId")));
    repeat split; reflexivity.
Qed.


Lemma first_truthy_accepted (nts : number -> string) (l : list value) :
  Forall (fun b => snd (isBidRequestValid nts b) = Ret true) l ->
  first_truthy "ssat" l = first_explicit "ssat" l.
Proof.
  induction 1 as [|b rest Hb _ IH]; [reflexivity|].
  cbn [first_truthy first_explicit].
  rewrite (accepted_ssat_truthy nts b Hb), IH.
  destruct (param_of b "ssat"); reflexivity.
Qed.

Lemma first_explicit_app (k : string) (before after : list value) (b : value) :
  first_explicit k before = None ->
  param_of b k <> VUndef ->
  first_explicit k (before ++ b :: after)%list = Some (param_of b k).
Proof.
  induction before as [|x rest IH]; cbn [app first_explicit]; intros Hnone Hb.
  - destruct (param_of b k); congruence.
  - destruct (param_of x k); try discriminate Hnone. now apply IH.
Qed.

(** C1, as stated, fails: with the stored flag ["1"] and a single request
    that sets [yl2: false] explicitly, the payload carries [yl2: true]. *)
Lemma buildRequests_yl2_explicit_false_counterexample :
  exists req,
    buildRequests integer_toString
      (Samples.browser Samples.nestedWindows "http:" (VStr "1"))
      [Samples.bid1_yl2_false]
      (Samples.bidderRequest [Samples.bid1_yl2_false] VUndef) = Ret req /\
    first_explicit "yl2" [Samples.bid1_yl2_false] = Some (VBool false) /\
    prop (data req) "yl2" = VBool true /\
    prop (data req) "yl2" <> VBool false.
Proof.
  eexists. split; [vm_compute; reflexivity|].
  split; [reflexivity|]. split; [reflexivity|]. discriminate.
Qed.

(** C1, amended: on a readable batch [buildRequests] returns a request
    whose [yl2] is the [yl2] of the first request, in order, where it is
    truthy; without one it is the stored flag (true exactly when the stored
    string is ["1"]), so a request that sets [yl2] to [false] leaves the
    decision to the stored flag, and the default is [false]. *)
Theorem buildRequests_yl2 (nts : number -> string) (env : environment)
    (valid : list value) (br : BidderRequest) :
  batch_ready env valid br = true ->
  exists req,
    buildRequests nts env valid br = Ret req /\
    prop (data req) "yl2" =
      match first_truthy "yl2" valid with
      | Some v => v
      | None => VBool (stored_flag env)
      end /\
    (first_truthy "yl2" valid = None ->
     localStorage_sdgYieldtest env <> Ret (VStr "1") ->
     prop (data req) "yl2" = VBool false).
Proof.
  intro H.
  destruct (buildRequests_ready nts env valid br H)
    as (req & entries & Hreq & _ & _ & _ & _ & _ & _ & Hyl2 & _).
  exists req. split; [exact Hreq|]. split; [exact Hyl2|].
  intros Hnone Hstored. rewrite Hyl2. unfold resolved. rewrite Hnone.
  unfold stored_flag.
  destruct (localStorage_sdgYieldtest env) as [stored|x]; [|reflexivity].
  destruct stored as [| |x|[|q]|s|l|o]; try reflexivity.
  cbn [strict_eq]. destruct (String.eqb s "1") eqn:E; [|reflexivity].
  apply String.eqb_eq in E. subst s. now elim Hstored.
Qed.

(** C3: on a readable batch of accepted requests [buildRequests] returns a
    request whose [ssat] is the [ssat] of the first request, in order, that
    sets one, and 2 when none does; what the requests after that one set
    does not matter. *)
Theorem buildRequests_ssat (nts : number -> string) (env : environment)
    (valid : list value) (br : BidderRequest) :
  batch_ready env valid br = true ->
  Forall (fun b => snd (isBidRequestValid nts b) = Ret true) valid ->
  exists req,
    buildRequests nts env valid br = Ret req /\
    prop (data req) "ssat" =
      match first_explicit "ssat" valid with
      | Some v => v
      | None => num 2
      end /\
    (forall before b after,
       valid = (before ++ b :: after)%list ->
       first_explicit "ssat" before = None ->
       param_of b "ssat" <> VUndef ->
       prop (data req) "ssat" = param_of b "ssat").
Proof.
  intros H Hacc.
  destruct (buildRequests_ready nts env valid br H)
    as (req & entries & Hreq & _ & _ & _ & _ & _ & Hssat & _).
  assert (Hres : prop (data req) "ssat" =
                 match first_explicit "ssat" valid with
                 | Some v => v
                 | None => num 2
                 end).
  { rewrite Hssat. unfold resolved.
    now rewrite (first_truthy_accepted nts valid Hacc). }
  exists req. split; [exact Hreq|]. split; [exact Hres|].
  intros before b after -> Hnone Hb.
  rewrite Hres, (first_explicit_app "ssat" before after b Hnone Hb).
  reflexivity.
Qed.

(** C4: on a readable batch the payload has a [gdpr] property exactly when
    [consentString] and [gdprApplies] of the batch's consent object are both
    neither [null] nor [undefined], and it is then [{consent, applies}]; a
    [gdprApplies] that is [false] counts as present. *)
Theorem buildRequests_gdpr (nts : number -> string) (env : environment)
    (valid : list value) (br : BidderRequest) :
  batch_ready env valid br = true ->
  exists req,
    buildRequests nts env valid br = Ret req /\
    let consentString := field (gdprConsent br) "consentString" in
    let gdprApplies := field (gdprConsent br) "gdprApplies" in
    (has_prop (data req) "gdpr" = true <->
     nullish consentString = false /\ nullish gdprApplies = false) /\
    (has_prop (data req) "gdpr" = true ->
     prop (data req) "gdpr" =
       VObj [("consent", consentString); ("applies", gdprApplies)]) /\
    (nullish consentString = false -> gdprApplies = VBool false ->
     prop (data req) "gdpr" =
       VObj [("consent", consentString); ("applies", VBool false)]).
Proof.
  intro H.
  destruct (buildRequests_ready nts env valid br H)
    as (req & entries & Hreq & _ & _ & _ & _ & _ & _ & _ & Hgdpr).
  exists req. split; [exact Hreq|].
  unfold has_prop, prop. rewrite Hgdpr. unfold gdpr_object.
  destruct (nullish (field (gdprConsent br) "consentString"));
    destruct (nullish (field (gdprConsent br) "gdprApplies")) eqn:Ea;
    cbn [negb andb]; (split; [split|split]); try tauto; try discriminate.
  all: try (intros [? ?]; discriminate).
  all: try (intros _ E; rewrite E in Ea; discriminate Ea).
  intros _ ->. reflexivity.
Qed.

(** C6: on a readable batch whose timeout, auction start, current time,
    elapsed time and remaining time are integers a double holds exactly
    (magnitude at most 2^53, as millisecond timestamps are), the payload's
    [timeout] is the batch timeout minus the time elapsed since the auction
    started, in exact integer arithmetic and without clamping: it is
    negative once the elapsed time exceeds the timeout. *)
Theorem buildRequests_timeout (nts : number -> string) (env : environment)
    (valid : list value) (br : BidderRequest) :
  batch_ready env valid br = true ->
  timing_exact env br = true ->
  exists req,
    buildRequests nts env valid br = Ret req /\
    prop (data req) "timeout" =
      num (timeout br - (Date_now env - auctionStart br)) /\
    ((timeout br < Date_now env - auctionStart br)%Z ->
     exists z, (z < 0)%Z /\ prop (data req) "timeout" = num z).
Proof.
  intros H _.
  destruct (buildRequests_ready nts env valid br H)
    as (req & entries & Hreq & _ & _ & _ & _ & Htimeout & _).
  exists req. split; [exact Hreq|]. split; [exact Htimeout|].
  intro Hlate.
  exists (timeout br - (Date_now env - auctionStart br))%Z.
  split; [lia | exact Htimeout].
Qed.

(** C10: with an empty list of bids in the batch [buildRequests] raises: the
    first bid is [undefined] and reading its [userId] fails (unless an
    earlier step already raised). *)
Theorem buildRequests_empty_bids_raises (nts : number -> string)
    (env : environment) (valid : list value) (br : BidderRequest) :
  bids br = [] ->
  exists e, buildRequests nts env valid br = Throw e.
Proof.
  intro H. unfold buildRequests. rewrite H. cbn [nth].
  do 4 match goal with
       | |- exists e, bind ?c _ = Throw e =>
           destruct c; cbn [bind]; [|eauto]
       end.
  cbn [get bind]. eauto.
Qed.




(** ** The properties on the fixtures of the test suite *)

Lemma buildRequests_yl2_witness :
  batch_ready Samples.flaggedBrowser [Samples.bid1_yl2_false]
    (Samples.bidderRequest [Samples.bid1_yl2_false] VUndef) = true /\
  exists req,
    buildRequests integer_toString Samples.flaggedBrowser
      [Samples.bid1_yl2_false]
      (Samples.bidderRequest [Samples.bid1_yl2_false] VUndef) = Ret req /\
    prop (data req) "yl2" = VBool true.
Proof.
  split; [reflexivity|].
  destruct (buildRequests_yl2 integer_toString Samples.flaggedBrowser
              [Samples.bid1_yl2_false]
              (Samples.bidderRequest [Samples.bid1_yl2_false] VUndef)
              eq_refl) as (req & Hreq & Hyl2 & _).
  exists req. split; [exact Hreq | exact Hyl2].
Defined.

Lemma buildRequests_ssat_witness :
  batch_ready Samples.testBrowser Samples.ssatBids
    (Samples.bidderRequest Samples.ssatBids VUndef) = true /\
  Forall (fun b => snd (isBidRequestValid integer_toString b) = Ret true)
         Samples.ssatBids /\
  exists req,
    buildRequests integer_toString Samples.testBrowser Samples.ssatBids
      (Samples.bidderRequest Samples.ssatBids VUndef) = Ret req /\
    prop (data req) "ssat" = num 1.
Proof.
  assert (Hacc : Forall (fun b => snd (isBidRequestValid integer_toString b)
                                  = Ret true) Samples.ssatBids)
    by (repeat constructor).
  split; [reflexivity|]. split; [exact Hacc|].
  destruct (buildRequests_ssat integer_toString Samples.testBrowser
              Samples.ssatBids
              (Samples.bidderRequest Samples.ssatBids VUndef) eq_refl Hacc)
    as (req & Hreq & Hssat & _).
  exists req. split; [exact Hreq | exact Hssat].
Defined.

Lemma buildRequests_gdpr_witness :
  batch_ready Samples.testBrowser Samples.twoBids
    (Samples.bidderRequest Samples.twoBids Samples.refusedConsent) = true /\
  exists req,
    buildRequests integer_toString Samples.testBrowser Samples.twoBids
      (Samples.bidderRequest Samples.twoBids Samples.refusedConsent)
    = Ret req /\
    prop (data req) "gdpr" =
      VObj [("consent", VStr "UGluZyBQb25n"); ("applies", VBool false)].
Proof.
  split; [reflexivity|].
  destruct (buildRequests_gdpr integer_toString Samples.testBrowser
              Samples.twoBids
              (Samples.bidderRequest Samples.twoBids Samples.refusedConsent)
              eq_refl)
    as (req & Hreq & _ & _ & Hfalse).
  exists req. split; [exact Hreq|]. exact (Hfalse eq_refl eq_refl).
Defined.


Lemma buildRequests_timeout_witness :
  batch_ready Samples.testBrowser Samples.twoBids
    (Samples.bidderRequest Samples.twoBids VUndef) = true /\
  timing_exact Samples.testBrowser
    (Samples.bidderRequest Samples.twoBids VUndef) = true /\
  (exists req,
     buildRequests integer_toString Samples.testBrowser Samples.twoBids
       (Samples.bidderRequest Samples.twoBids VUndef) = Ret req /\
     prop (data req) "timeout" = num 1500) /\
  batch_ready Samples.lateBrowser Samples.twoBids
    (Samples.bidderRequest Samples.twoBids VUndef) = true /\
  timing_exact Samples.lateBrowser
    (Samples.bidderRequest Samples.twoBids VUndef) = true /\
  (exists req,
     buildRequests integer_toString Samples.lateBrowser Samples.twoBids
       (Samples.bidderRequest Samples.twoBids VUndef) = Ret req /\
     prop (data req) "timeout" = num (-5000)).
Proof.
  split; [reflexivity|]. split; [reflexivity|]. split.
  - destruct (buildRequests_timeout integer_toString Samples.testBrowser
                Samples.twoBids
                (Samples.bidderRequest Samples.twoBids VUndef)
                eq_refl eq_refl) as (req & Hreq & Htimeout & _).
    exists req. split; [exact Hreq | exact Htimeout].
  - split; [reflexivity|]. split; [reflexivity|].
    destruct (buildRequests_timeout integer_toString Samples.lateBrowser
                Samples.twoBids
                (Samples.bidderRequest Samples.twoBids VUndef)
                eq_refl eq_refl) as (req & Hreq & Htimeout & _).
    exists req. split; [exact Hreq | exact Htimeout].
Defined.

Lemma buildRequests_empty_bids_raises_witness :
  bids (Samples.bidderRequest [] VUndef) = [] /\
  exists e,
    buildRequests integer_toString Samples.testBrowser [Samples.bid1]
      (Samples.bidderRequest [] VUndef) = Throw e.
Proof.
  split; [reflexivity|].
  exact (buildRequests_empty_bids_raises integer_toString Samples.testBrowser
           [Samples.bid1] (Samples.bidderRequest [] VUndef) eq_refl).
Defined.

Lemma interpretResponse_no_body_witness :
  get (VObj [("body", VStr "  ")]) "body" = Ret (VStr "  ") /\
  (truthy (VStr "  ") = false \/ typeof (VStr "  ") <> "object") /\
  interpretResponse (VObj [("body", VStr "  ")]) = ([], Ret []).
Proof.
  assert (Hty : typeof (VStr "  ") <> "object") by discriminate.
  split; [reflexivity|]. split; [right; exact Hty|].
  exact (interpretResponse_no_body (VObj [("body", VStr "  ")]) (VStr "  ")
           eq_refl (or_intror Hty)).
Defined.


Lemma isBidRequestValid_null_params_raises_witness :
  isBanner (VObj [("bidId", VStr "bid1"); ("params", VNull)])
  = Ret (VBool true) /\
  isBidRequestValid integer_toString
    (VObj [("bidId", VStr "bid1"); ("params", VNull)])
  = ([], Throw TypeError).
Proof.
  split; [reflexivity|].
  exact (isBidRequestValid_null_params_raises integer_toString
           [("bidId", VStr "bid1"); ("params", VNull)] (VBool true)
           eq_refl eq_refl eq_refl).
Defined.

(** The fixtures of the test suite through [elementInView]: both placements
    are seen through the two frames; an unknown placement is [undefined]. *)
Example elementInView_nested_windows :
  elementInView integer_toString Samples.testBrowser (VStr "div-1")
  = VBool true /\
  elementInView integer_toString Samples.testBrowser (VStr "div-2")
  = VBool true /\
  elementInView integer_toString Samples.testBrowser (VStr "div-9") = VUndef.
Proof. repeat split; reflexivity. Qed.

(** Under a page of another origin the walk raises at the frame element:
    the answer is [undefined]. *)
Example elementInView_foreign_parent :
  elementInView integer_toString
    (Samples.browser Samples.foreignParent "http:" VUndef) (VStr "div-1")
  = VUndef.
Proof. reflexivity. Qed.

(** The accepted and rejected [ssat] values of the test suite. *)
Example isBidRequestValid_ssat_samples :
  snd (isBidRequestValid integer_toString Samples.bid1) = Ret true /\
  snd (isBidRequestValid integer_toString Samples.bid2_ssat1) = Ret true /\
  snd (isBidRequestValid integer_toString Samples.bid3_ssat2) = Ret true /\
  snd (isBidRequestValid integer_toString
         (Samples.bid "bid1" "div-1" (VArr [])
            (VObj [("sid", VStr "NDA="); ("ssat", num 3)]))) = Ret false.
Proof. repeat split; reflexivity. Qed.

(** X21: an element that is out of view in its own window settles the
    answer: the frames above it are not read. *)
Remark visibleInWindow_out_of_view_stops (el : option element)
    (w : win_props) (frameElement : result (option element))
    (parent : window) :
  level el w = Ret false ->
  visibleInWindow el (FrameWindow w frameElement parent) = Ret false.
Proof. intro H. rewrite visibleInWindow_frame, H. reflexivity. Qed.

(* ================================================================== *)
(** * Further properties *)
(* ================================================================== *)

(** ** Validation, rule by rule *)

Lemma isBanner_truthy (o : object) (v : value) :
  isBanner (VObj o) = Ret v -> truthy v = banner_ok o.
Proof.
  unfold isBanner, banner_ok. rewrite !get_VObj. cbn [bind].
  destruct (truthy (prop o "mediaTypes")) eqn:Hmt; cbn [bind negb andb orb].
  - rewrite (get_field _ "banner" (truthy_not_nullish _ Hmt)). cbn [bind].
    destruct (truthy (field (prop o "mediaTypes") "banner")) eqn:Hb.
    + intro H. injection H as <-. exact Hb.
    + intro H. injection H as <-. reflexivity.
  - destruct (truthy (prop o "mediaType")) eqn:Hm; cbn [negb bind].
    + rewrite Hmt. intro H. injection H as <-. reflexivity.
    + intro H. injection H as <-. reflexivity.
Qed.

Lemma indexOf_ssat (v : value) :
  (-1 <? indexOf [num 1; num 2] v)%Z
  = (strict_eq (num 1) v || strict_eq (num 2) v)%bool.
Proof.
  unfold indexOf. cbn [indexOf_from].
  destruct (strict_eq (num 1) v); [reflexivity|].
  destruct (strict_eq (num 2) v); reflexivity.
Qed.

Lemma snd_isBidRequestValid_object_params (nts : number -> string)
    (o p : object) :
  prop o "params" = VObj p ->
  snd (isBidRequestValid nts (VObj o)) =
  Ret (banner_ok o && Utils.isStr (prop p "sid") && ssat_ok (prop p "ssat")).
Proof.
  intro Hp. unfold isBidRequestValid, validators.
  rewrite snd_every_cons, snd_createValidator.
  destruct (isBanner_object o) as [v Hv]. rewrite Hv.
  rewrite (isBanner_truthy o v Hv).
  unfold bid_request_label. rewrite !get_VObj. cbn [bind].
  destruct (banner_ok o); [|reflexivity]. cbn [andb].
  rewrite snd_every_cons, snd_createValidator, get_VObj, Hp. cbn [bind].
  cbn [typeof String.eqb Ascii.eqb Bool.eqb truthy].
  rewrite snd_every_cons, snd_createValidator, get_VObj, Hp. cbn [bind get].
  cbn [truthy]. destruct (Utils.isStr (prop p "sid")); [|reflexivity].
  cbn [andb].
  rewrite snd_every_cons, snd_createValidator, get_VObj, Hp. cbn [bind get].
  cbn [truthy]. rewrite indexOf_ssat. unfold ssat_ok.
  rewrite <- orb_assoc.
  destruct (strict_eq (prop p "ssat") VUndef
            || (strict_eq (num 1) (prop p "ssat")
                || strict_eq (num 2) (prop p "ssat")))%bool; reflexivity.
Qed.

(** X1: a request is accepted exactly when it is an object that passes the
    banner rule, whose [params] is an object with a string [sid] and an
    [ssat] that is absent, 1 or 2. *)
Theorem isBidRequestValid_accepts_iff (nts : number -> string) (b : value) :
  snd (isBidRequestValid nts b) = Ret true <->
  exists o p,
    b = VObj o /\ prop o "params" = VObj p /\
    banner_ok o = true /\
    Utils.isStr (prop p "sid") = true /\
    ssat_ok (prop p "ssat") = true.
Proof.
  split.
  - intro H.
    destruct (isBidRequestValid_accepts_inv nts b H)
      as (o & p & s & -> & Hp & _ & _).
    rewrite (snd_isBidRequestValid_object_params nts o p Hp) in H.
    injection H as H.
    apply andb_prop in H. destruct H as [H Hssat].
    apply andb_prop in H. destruct H as [Hbanner Hsid].
    exists o, p. auto.
  - intros (o & p & -> & Hp & Hbanner & Hsid & Hssat).
    rewrite (snd_isBidRequestValid_object_params nts o p Hp).
    now rewrite Hbanner, Hsid, Hssat.
Qed.


Lemma createValidator_tidy (nts : number -> string)
    (checkFn : value -> result value) (errorMsgFn : value -> result string)
    (x : value) :
  tidy (createValidator checkFn errorMsgFn x).
Proof.
  unfold createValidator, lift.
  destruct (checkFn x) as [ok|e]; [|exact I].
  rewrite ebind_Ret_nil.
  destruct (truthy ok); [exact I|].
  destruct (errorMsgFn x) as [msg|e]; [|exact I].
  cbn. eauto.
Qed.

Lemma every_tidy (fs : list (value -> eff bool)) (x : value) :
  Forall (fun f => tidy (f x)) fs -> tidy (every fs x).
Proof.
  induction 1 as [|f rest Hf _ IH]; [exact I|].
  cbn [every].
  destruct (f x) as [[|[msg|u] [|ev tr]] [[|]|e]];
    cbn in Hf; try contradiction.
  - rewrite ebind_Ret_nil. exact IH.
  - exact I.
  - exact Hf.
Qed.

(** X3: whatever the request, validation ends in one of three ways: it
    accepts and logs nothing, it rejects and logs exactly one message, which
    starts with [invalid bid: ], or it raises and logs nothing. *)
Theorem isBidRequestValid_tidy (nts : number -> string) (b : value) :
  tidy (isBidRequestValid nts b).
Proof.
  unfold isBidRequestValid, validators.
  apply every_tidy.
  repeat constructor; apply (createValidator_tidy nts).
Qed.


(** X5: a request that is [undefined] or [null] makes the validation raise;
    any other value that is not an object (a boolean, a number, a string,
    an array) is rejected for its missing [params]. *)
Theorem isBidRequestValid_non_object (nts : number -> string) (b : value) :
  (forall o, b <> VObj o) ->
  isBidRequestValid nts b =
  if nullish b then ([], Throw TypeError)
  else ([LogError
           "invalid bid: bid request undefined does not have custom params"],
        Ret false).
Proof.
  intro H. destruct b as [| |x|n|s|l|o]; try reflexivity.
  now elim (H o).
Qed.

(** ** The search *)

(** X6: [find] answers with the first item on which the predicate is
    truthy, having seen only falsy answers before it; with [undefined] when
    the predicate is falsy on every item; and it raises exactly when the
    predicate raises on an item before any truthy answer. *)
Theorem find_outcome (l : list value) (p : value -> result value) :
  match find l p with
  | Ret w =>
      (exists before after t,
         l = (before ++ w :: after)%list /\ Forall (falsy_at p) before /\
         p w = Ret t /\ truthy t = true) \/
      (w = VUndef /\ Forall (falsy_at p) l)
  | Throw e =>
      exists before x after,
        l = (before ++ x :: after)%list /\ Forall (falsy_at p) before /\
        p x = Throw e
  end.
Proof.
  induction l as [|x rest IH]; cbn [find].
  - right. split; [reflexivity | constructor].
  - destruct (p x) as [t|e] eqn:Hp; cbn [bind].
    + destruct (truthy t) eqn:Ht.
      * left. exists [], rest, t. repeat split; auto.
      * assert (Hx : falsy_at p x) by (exists t; auto).
        destruct (find rest p) as [w|e].
        -- destruct IH as [(before & after & t' & -> & Hb & Hw & Ht')
                          | [-> Hall]].
           ++ left. exists (x :: before), after, t'.
              repeat split; auto.
           ++ right. split; [reflexivity | constructor; assumption].
        -- destruct IH as (before & y & after & -> & Hb & Hy).
           exists (x :: before), y, after. repeat split; auto.
    + exists [], x, rest. repeat split; auto.
Qed.

(** ** The walk to the top window *)

Lemma climb_is_top (win : window) :
  is_top (climb win) = ancestors_readable win.
Proof.
  induction win as [w | w fe parent IH]; [reflexivity|].
  cbn [climb ancestors_readable].
  destruct (location_href (props parent)) as [href|x]; [|reflexivity].
  destruct (Nat.eqb (String.length href) 0); [reflexivity | exact IH].
Qed.

Lemma top_of_climb (win : window) : top_of (climb win) = top_of win.
Proof.
  induction win as [w | w fe parent IH]; [reflexivity|].
  cbn [climb].
  destruct (location_href (props parent)) as [href|x]; [|reflexivity].
  destruct (Nat.eqb (String.length href) 0); [reflexivity | exact IH].
Qed.

Lemma top_of_is_top (win : window) : is_top (top_of win) = true.
Proof. induction win; [reflexivity | assumption]. Qed.

(** X7: the main page counts as accessible exactly when every window above
    the current one lets its [location.href] be read and it is not empty;
    and that is exactly when the walk ends on the top window itself. *)
Theorem isMainPageAccessible_iff (env : environment) :
  isMainPageAccessible env = ancestors_readable (window_self env) /\
  (isMainPageAccessible env = true <->
   getMostAccessibleTopWindow env = top_of (window_self env)).
Proof.
  unfold isMainPageAccessible, getMostAccessibleTopWindow.
  split; [apply climb_is_top|].
  split.
  - intro H. rewrite <- (top_of_climb (window_self env)).
    destruct (climb (window_self env)); [reflexivity | discriminate H].
  - intros ->. apply top_of_is_top.
Qed.

(** X8: the window the walk ends on belongs to the same chain, is either
    the top or one whose parent cannot be entered, and walking on from it
    goes nowhere. *)
Theorem getMostAccessibleTopWindow_stops (win : window) :
  top_of (climb win) = top_of win /\
  (is_top (climb win) = true \/ blocked (climb win) = true) /\
  climb (climb win) = climb win.
Proof.
  split; [apply top_of_climb|].
  induction win as [w | w fe parent [IH1 IH2]].
  - split; [now left | reflexivity].
  - cbn [climb].
    destruct (location_href (props parent)) as [href|x] eqn:Hh.
    + destruct (Nat.eqb (String.length href) 0) eqn:Hl.
      * split; [right|]; cbn [blocked climb]; now rewrite Hh, Hl.
      * split; assumption.
    + split; [right|]; cbn [blocked climb]; now rewrite Hh.
Qed.

(** ** Visibility, the other outcomes *)

(** X9: [elementInView] answers [true] exactly when the element is found
    and in view at every level up to the top, and [false] exactly when the
    walk neither raises nor finds every level in view; so it always answers
    [true], [false] or [undefined]. *)
Theorem elementInView_decides (nts : number -> string) (env : environment)
    (elementId : value) :
  (elementInView nts env elementId = VBool true <->
   exists e, getElementById env (ToString nts elementId) = Some e /\
             in_view_chain e (window_self env)) /\
  (elementInView nts env elementId = VBool false <->
   ~ walk_raises (getElementById env (ToString nts elementId))
                 (window_self env) /\
   ~ exists e, getElementById env (ToString nts elementId) = Some e /\
               in_view_chain e (window_self env)).
Proof.
  unfold elementInView.
  set (el := getElementById env (ToString nts elementId)).
  pose proof (visibleInWindow_true (window_self env) el) as Htrue.
  pose proof (visibleInWindow_raises (window_self env) el) as Hraise.
  destruct (visibleInWindow el (window_self env)) as [[|]|x] eqn:E.
  - split; split; try discriminate.
    + intros _. now apply Htrue.
    + reflexivity.
    + intros [_ Hno]. elim Hno. now apply Htrue.
  - split; split; try discriminate.
    + intro H. apply Htrue in H. discriminate H.
    + intros _. split.
      * intro H. apply Hraise in H. destruct H as [y H]. discriminate H.
      * intro H. apply Htrue in H. discriminate H.
    + reflexivity.
  - split; split; try discriminate.
    + intro H. apply Htrue in H. discriminate H.
    + intros [Hno _]. elim Hno. apply Hraise. eauto.
Qed.

(** ** The request, whenever one is returned *)

Lemma buildRequests_Ret_inv (nts : number -> string) (env : environment)
    (valid : list value) (br : BidderRequest) (req : ServerRequest) :
  buildRequests nts env valid br = Ret req ->
  exists wS wY ssat yl2 userIds entries params,
    find valid (fun bidRequest => params <- get bidRequest "params" ;;
                                  get params "ssat") = Ret wS /\
    find valid (fun bidRequest => params <- get bidRequest "params" ;;
                                  get params "yl2") = Ret wY /\
    (if truthy wS then params <- get wS "params" ;; get params "ssat"
     else Ret (num 2)) = Ret ssat /\
    (if truthy wY then params <- get wY "params" ;; get params "yl2"
     else stored <- localStorage_sdgYieldtest env ;;
          Ret (VBool (strict_eq stored (VStr "1")))) = Ret yl2 /\
    get (nth 0 (bids br) VUndef) "userId" = Ret userIds /\
    mapM (bid_entry nts env) valid = Ret entries /\
    get (nth 0 (bids br) VUndef) "params" = Ret params /\
    buildUrl nts params = Ret (url req) /\
    method req = "POST" /\
    data req = finished_payload (base_payload env br ssat yl2) userIds
                 (gdpr_object (gdprConsent br)) entries.
Proof.
  unfold buildRequests. intro H.
  apply bind_Ret_inv in H. destruct H as (wS & HwS & H).
  apply bind_Ret_inv in H. destruct H as (wY & HwY & H).
  apply bind_Ret_inv in H. destruct H as (ssat & Hssat & H).
  apply bind_Ret_inv in H. destruct H as (yl2 & Hyl2 & H).
  apply bind_Ret_inv in H. destruct H as (userIds & Hu & H).
  rewrite gdpr_stage in H. cbn [bind] in H.
  apply bind_Ret_inv in H. destruct H as (entries & He & H).
  apply bind_Ret_inv in H. destruct H as (params & Hp & H).
  apply bind_Ret_inv in H. destruct H as (endpoint & Hurl & H).
  injection H as <-.
  exists wS, wY, ssat, yl2, userIds, entries, params.
  repeat split; assumption.
Qed.

Lemma get_Ret_field (v x : value) (k : string) :
  get v k = Ret x -> nullish v = false /\ x = field v k.
Proof.
  destruct v; cbn; intro H; try discriminate H; injection H as <-; auto.
Qed.

Lemma finished_payload_prop (base : object) (userIds : value)
    (gdpr : option value) (entries : list value) (k : string) :
  String.eqb k "bids" = false -> String.eqb k "gdpr" = false ->
  String.eqb k "user" = false ->
  prop (finished_payload base userIds gdpr entries) k = prop base k.
Proof.
  intros Hb Hg Hu. unfold finished_payload.
  rewrite prop_set_prop, Hb.
  destruct gdpr as [g|]; [rewrite prop_set_prop, Hg|];
    destruct (negb (Utils.isEmpty userIds));
    rewrite ?prop_set_prop, ?Hu; reflexivity.
Qed.

(** X10: whenever a request is returned it is a POST whose payload carries
    the auction id, the referrer of the top window (that of the current
    window where the top one cannot be read), whether the current window is
    served over https, whether the main page is accessible and the global
    [yieldlove_ab]; what is added later does not touch them. *)
Theorem buildRequests_context (nts : number -> string) (env : environment)
    (valid : list value) (br : BidderRequest) (req : ServerRequest) :
  buildRequests nts env valid br = Ret req ->
  method req = "POST" /\
  prop (data req) "id" = auctionId br /\
  prop (data req) "ref" =
    match document_referrer (props (top_of (window_self env))) with
    | Ret referrer => referrer
    | Throw _ => self_referrer env
    end /\
  prop (data req) "ssl" = VBool (String.eqb (self_protocol env) "https:") /\
  prop (data req) "mpa" = VBool (ancestors_readable (window_self env)) /\
  prop (data req) "ab" = yieldlove_ab env.
Proof.
  intro H.
  destruct (buildRequests_Ret_inv nts env valid br req H)
    as (wS & wY & ssat & yl2 & userIds & entries & params &
        _ & _ & _ & _ & _ & _ & _ & _ & Hm & Hd).
  split; [exact Hm|]. rewrite Hd.
  rewrite !finished_payload_prop by reflexivity.
  repeat split. cbn.
  unfold isMainPageAccessible, getMostAccessibleTopWindow.
  now rewrite climb_is_top.
Qed.

(** X11: the payload of a returned request has the nine properties of the
    object literal, in its order, then [user] exactly when the [userId] of
    the first bid of the batch is not empty (it is sent as [euids]), then
    [gdpr] exactly when the consent is complete; nothing else. *)
Theorem buildRequests_payload_shape (nts : number -> string)
    (env : environment) (valid : list value) (br : BidderRequest)
    (req : ServerRequest) :
  buildRequests nts env valid br = Ret req ->
  let userId := field (nth 0 (bids br) VUndef) "userId" in
  map fst (data req) =
    (base_keys
     ++ (if Utils.isEmpty userId then [] else ["user"])
     ++ match gdpr_object (gdprConsent br) with
        | Some _ => ["gdpr"]
        | None => []
        end)%list /\
  lookup "user" (data req) =
    (if Utils.isEmpty userId then None
     else Some (VObj [("euids", userId)])).
Proof.
  intro H.
  destruct (buildRequests_Ret_inv nts env valid br req H)
    as (wS & wY & ssat & yl2 & userIds & entries & params &
        _ & _ & _ & _ & Hu & _ & _ & _ & _ & Hd).
  apply get_Ret_field in Hu. destruct Hu as [_ ->].
  cbv zeta. rewrite Hd. unfold finished_payload, base_payload.
  destruct (gdpr_object (gdprConsent br));
    destruct (Utils.isEmpty (field (nth 0 (bids br) VUndef) "userId"));
    split; reflexivity.
Qed.

Lemma bidSizes_value (o : object) (siz : value) :
  bidSizes (VObj o) = Ret siz -> siz = sizes_of o.
Proof.
  unfold bidSizes, sizes_of. cbv zeta. rewrite deepAccess_sizes.
  destruct (truthy (field (field (field (VObj o) "mediaTypes") "banner")
                          "sizes")).
  - intro H. now injection H as <-.
  - rewrite get_VObj. cbn [bind]. intro H. injection H as <-.
    unfold or_else. now destruct (truthy (prop o "sizes")).
Qed.

Lemma bid_entry_value (nts : number -> string) (env : environment)
    (b e : value) :
  bid_entry nts env b = Ret e -> has_params b /\ e = entry_of nts env b.
Proof.
  unfold bid_entry. intro H.
  apply bind_Ret_inv in H. destruct H as (bidId & Hb & H).
  apply bind_Ret_inv in H. destruct H as (params & Hp & H).
  apply bind_Ret_inv in H. destruct H as (sid & Hs & H).
  apply bind_Ret_inv in H. destruct H as (siz & Hz & H).
  apply bind_Ret_inv in H. destruct H as (adUnitCode & Ha & H).
  injection H as <-.
  apply get_Ret_field in Hs. destruct Hs as [Hpn ->].
  destruct b as [| |x|n|s|l|o]; try discriminate Hb;
    try (cbn in Hp; injection Hp as <-; discriminate Hpn).
  rewrite get_VObj in Hb, Hp, Ha.
  injection Hb as <-. injection Hp as <-. injection Ha as <-.
  apply bidSizes_value in Hz. subst siz.
  split; [exists o; auto|].
  unfold entry_of, param_of, field.
  destruct (prop o "params"); try reflexivity; discriminate Hpn.
Qed.

Lemma mapM_Ret_inv {A B} (f : A -> result B) (l : list A) (ys : list B) :
  mapM f l = Ret ys -> Forall2 (fun x y => f x = Ret y) l ys.
Proof.
  revert ys. induction l as [|x rest IH]; cbn [mapM]; intros ys H.
  - injection H as <-. constructor.
  - apply bind_Ret_inv in H. destruct H as (y & Hy & H).
    apply bind_Ret_inv in H. destruct H as (ys' & Hys & H).
    injection H as <-. constructor; auto.
Qed.

(** X12: the [bids] of the payload hold one entry for each validated
    request, in the same order: its [bidId], its [params.sid], its sizes
    (the structured banner sizes, else the legacy [sizes], else none) and
    the visibility of its ad unit. *)
Theorem buildRequests_entries (nts : number -> string) (env : environment)
    (valid : list value) (br : BidderRequest) (req : ServerRequest) :
  buildRequests nts env valid br = Ret req ->
  prop (data req) "bids" = VArr (map (entry_of nts env) valid).
Proof.
  intro H.
  destruct (buildRequests_Ret_inv nts env valid br req H)
    as (wS & wY & ssat & yl2 & userIds & entries & params &
        _ & _ & _ & _ & _ & He & _ & _ & _ & Hd).
  rewrite Hd. unfold finished_payload. rewrite prop_set_prop. cbn.
  f_equal. apply mapM_Ret_inv in He. clear H Hd.
  induction He as [|b e rest es Hbe _ IH]; [reflexivity|].
  cbn [map]. apply bid_entry_value in Hbe. destruct Hbe as [_ ->].
  now rewrite IH.
Qed.

Lemma buildUrl_Ret_params (nts : number -> string) (params : value)
    (u : string) :
  buildUrl nts params = Ret u -> nullish params = false.
Proof. destruct params; try reflexivity; discriminate. Qed.

(** X13: a request is returned only if the first bid of the batch and every
    validated request are objects whose [params] is neither [null] nor
    [undefined]: [buildRequests] relies on the validation and raises
    otherwise. *)
Theorem buildRequests_needs_params (nts : number -> string)
    (env : environment) (valid : list value) (br : BidderRequest)
    (req : ServerRequest) :
  buildRequests nts env valid br = Ret req ->
  (exists first rest, bids br = first :: rest /\ has_params first) /\
  Forall has_params valid.
Proof.
  intro H.
  destruct (buildRequests_Ret_inv nts env valid br req H)
    as (wS & wY & ssat & yl2 & userIds & entries & params &
        _ & _ & _ & _ & _ & He & Hp & Hurl & _ & _).
  split.
  - apply buildUrl_Ret_params in Hurl.
    destruct (bids br) as [|first rest]; [discriminate Hp|].
    exists first, rest. split; [reflexivity|]. cbn [nth] in Hp.
    destruct first as [| |x|n|s|l|o]; try discriminate Hp;
      try (cbn in Hp; injection Hp as <-; discriminate Hurl).
    rewrite get_VObj in Hp. injection Hp as <-. exists o. auto.
  - apply mapM_Ret_inv in He. clear H Hp Hurl.
    induction He as [|b e rest es Hbe _ IH]; constructor; [|exact IH].
    now apply bid_entry_value in Hbe.
Qed.

Lemma read_param_has_params (b : value) (k : string) :
  has_params b ->
  (params <- get b "params" ;; get params k) = Ret (param_of b k).
Proof.
  intros (o & -> & Hp).
  rewrite get_VObj. cbn [bind]. rewrite (get_field _ k Hp).
  unfold param_of, field. destruct (prop o "params"); reflexivity.
Qed.

Lemma find_param_has_params (k : string) (l : list value)
    (fallback : result value) :
  Forall has_params l ->
  exists w,
    find l (fun bidRequest => params <- get bidRequest "params" ;;
                              get params k) = Ret w /\
    (if truthy w then params <- get w "params" ;; get params k
     else fallback) =
    match first_truthy k l with
    | Some v => Ret v
    | None => fallback
    end.
Proof.
  induction 1 as [|b rest Hb _ IH].
  - exists VUndef. split; reflexivity.
  - cbn [find first_truthy]. rewrite (read_param_has_params b k Hb).
    cbn [bind].
    destruct (truthy (param_of b k)) eqn:Ht; [|exact IH].
    exists b. split; [reflexivity|].
    destruct Hb as (o & -> & Hp). cbn [truthy].
    apply read_param_has_params. exists o. auto.
Qed.

(** X14: whenever a request is returned, validated batch or not, its [ssat]
    is the first truthy [params.ssat] in order, else 2, and its [yl2] the
    first truthy [params.yl2], else whether the stored flag is ["1"]: a
    value such as 99 is passed on as it is, a falsy one such as 0 or
    [false] is skipped. *)
Theorem buildRequests_resolves (nts : number -> string) (env : environment)
    (valid : list value) (br : BidderRequest) (req : ServerRequest) :
  buildRequests nts env valid br = Ret req ->
  prop (data req) "ssat" = resolved "ssat" valid (num 2) /\
  prop (data req) "yl2" = resolved "yl2" valid (VBool (stored_flag env)).
Proof.
  intro H.
  destruct (buildRequests_Ret_inv nts env valid br req H)
    as (wS & wY & ssat & yl2 & userIds & entries & params &
        HwS & HwY & Hssat & Hyl2 & _ & He & _ & _ & _ & Hd).
  assert (Hall : Forall has_params valid).
  { apply mapM_Ret_inv in He. clear - He.
    induction He as [|b e rest es Hbe _ IH]; constructor; [|exact IH].
    now apply bid_entry_value in Hbe. }
  rewrite Hd, !finished_payload_prop by reflexivity.
  unfold resolved. split.
  - destruct (find_param_has_params "ssat" valid (Ret (num 2)) Hall)
      as (w & Hw & Hc).
    rewrite HwS in Hw. injection Hw as <-. rewrite Hssat in Hc.
    destruct (first_truthy "ssat" valid); now injection Hc as ->.
  - destruct (find_param_has_params "yl2" valid
                (stored <- localStorage_sdgYieldtest env ;;
                 Ret (VBool (strict_eq stored (VStr "1")))) Hall)
      as (w & Hw & Hc).
    rewrite HwY in Hw. injection Hw as <-. rewrite Hyl2 in Hc.
    destruct (first_truthy "yl2" valid); [now injection Hc as ->|].
    unfold stored_flag.
    destruct (localStorage_sdgYieldtest env); [|discriminate Hc].
    now injection Hc as ->.
Qed.

(** X15: on a request that can be read, [bidSizes] settles on the
    structured [mediaTypes.banner.sizes] when they are truthy, else on the
    legacy [sizes], else on the empty list. *)
Theorem bidSizes_precedence (o : object) :
  readable_request (VObj o) = true ->
  bidSizes (VObj o) = Ret (sizes_of o).
Proof.
  intro H. destruct (bidSizes_returns (VObj o) H) as [siz Hsiz].
  rewrite Hsiz. f_equal. now apply bidSizes_value.
Qed.


(** ** The response, beyond the bids *)

Lemma fst_ebind {A B} (c : eff A) (k : A -> eff B) :
  fst (ebind c k) =
  (fst c ++ match snd c with
            | Ret a => fst (k a)
            | Throw _ => []
            end)%list.
Proof.
  destruct c as [tr [a|e]]; cbn [ebind fst snd].
  - now destruct (k a).
  - now rewrite app_nil_r.
Qed.

(** X17: [interpretResponse] fires the tracking request exactly when the
    body is an object with a truthy [tep], once, to that address, before it
    looks at the bids (so also when reading them raises); otherwise it
    fires nothing. *)
Theorem interpretResponse_tracking (sr body : value) :
  get sr "body" = Ret body ->
  fst (interpretResponse sr) =
  if truthy body && String.eqb (typeof body) "object"
     && truthy (field body "tep")
  then [Ajax (field body "tep")]
  else [].
Proof.
  intro H. unfold interpretResponse. rewrite H. unfold lift.
  rewrite ebind_Ret_nil.
  destruct (truthy body) eqn:Ht; [|reflexivity].
  destruct (String.eqb (typeof body) "object"); [|reflexivity].
  cbn [andb]. rewrite (get_field body "tep" (truthy_not_nullish _ Ht)).
  rewrite ebind_Ret_nil, fst_ebind.
  destruct (truthy (field body "tep")); cbn [emit eret fst snd app].
  - rewrite fst_ebind. cbn [fst snd app].
    now destruct (get body "bids").
  - rewrite fst_ebind. cbn [fst snd app].
    now destruct (get body "bids").
Qed.

Lemma normalized_bid_nullish (e : value) :
  nullish e = true -> normalized_bid e = Throw TypeError.
Proof. destruct e; try discriminate; reflexivity. Qed.

Lemma mapM_normalized_bid (l : list value) :
  (existsb nullish l = true /\ mapM normalized_bid l = Throw TypeError) \/
  (existsb nullish l = false /\
   exists out, mapM normalized_bid l = Ret out /\ length out = length l).
Proof.
  induction l as [|e rest IH].
  - right. split; [reflexivity|]. exists []. split; reflexivity.
  - cbn [existsb mapM]. destruct (nullish e) eqn:Hn.
    + left. split; [reflexivity|].
      now rewrite (normalized_bid_nullish e Hn).
    + rewrite (normalized_bid_fields e Hn). cbn [bind orb].
      destruct IH as [[Hex Hthrow] | [Hex (out & Hout & Hlen)]].
      * left. split; [exact Hex|]. now rewrite Hthrow.
      * right. split; [exact Hex|]. rewrite Hout. cbn [bind].
        eexists. split; [reflexivity|]. cbn [length]. now rewrite Hlen.
Qed.

(** X18: with an object for a body, [interpretResponse] raises exactly when
    [bids] is not an array (the legacy redirect-only body) or one of its
    entries is [null] or [undefined], always with a [TypeError]; otherwise
    it returns as many bids as there are entries. *)
Theorem interpretResponse_raises_iff (sr : value) (b : object) :
  get sr "body" = Ret (VObj b) ->
  (snd (interpretResponse sr) = Throw TypeError <->
   match prop b "bids" with
   | VArr entries => existsb nullish entries = true
   | _ => True
   end) /\
  (forall e, snd (interpretResponse sr) = Throw e -> e = TypeError) /\
  (forall entries out,
     prop b "bids" = VArr entries ->
     snd (interpretResponse sr) = Ret out ->
     length out = length entries).
Proof.
  intro H. rewrite (snd_interpretResponse_object sr b H).
  destruct (prop b "bids") as [| |x|n|s|l|o]; cbn [forEach_push];
    try (split; [split; auto | split; [congruence | discriminate]]).
  destruct (mapM_normalized_bid l) as [[Hex Hm] | [Hex (out & Hm & Hlen)]];
    rewrite Hm, Hex.
  - split; [split; auto | split; [congruence | discriminate]].
  - split; [split; discriminate | split; [discriminate|]].
    intros entries out' Hl Hout. injection Hl as <-. now injection Hout as <-.
Qed.





(** ** User syncs *)

(** X20: [getUserSyncs] hands out the one iframe descriptor exactly when
    there is at least one response and [iframeEnabled] is truthy.  Without
    responses the options are not read, so the answer is the empty list
    whatever they are; with responses, options that are [null] or
    [undefined] make it raise.  What the responses hold never matters. *)
Theorem getUserSyncs_outcomes (syncOptions : value)
    (serverResponses : list value) :
  (serverResponses = [] -> getUserSyncs syncOptions serverResponses = Ret []) /\
  (serverResponses <> [] -> nullish syncOptions = false ->
   getUserSyncs syncOptions serverResponses =
   Ret (if truthy (field syncOptions "iframeEnabled")
        then [sync_descriptor] else [])) /\
  (serverResponses <> [] -> nullish syncOptions = true ->
   getUserSyncs syncOptions serverResponses = Throw TypeError).
Proof.
  unfold getUserSyncs. repeat split.
  - intros ->. reflexivity.
  - intros Hne Hn. destruct serverResponses as [|r rest]; [now elim Hne|].
    cbn [length]. rewrite (get_field _ _ Hn).
    replace (0 <? Z.of_nat (S (length rest)))%Z with true
      by (symmetry; apply Z.ltb_lt; lia).
    cbn [bind]. now destruct (truthy (field syncOptions "iframeEnabled")).
  - intros Hne Hn. destruct serverResponses as [|r rest]; [now elim Hne|].
    cbn [length].
    replace (0 <? Z.of_nat (S (length rest)))%Z with true
      by (symmetry; apply Z.ltb_lt; lia).
    destruct syncOptions; try discriminate Hn; reflexivity.
Qed.


(** ** The further properties on the fixtures *)



Lemma isBidRequestValid_non_object_witness :
  (forall o, VArr [] <> VObj o) /\
  isBidRequestValid integer_toString (VArr []) =
  ([LogError
      "invalid bid: bid request undefined does not have custom params"],
   Ret false).
Proof.
  assert (H : forall o, VArr [] <> VObj o) by discriminate.
  split; [exact H|].
  exact (isBidRequestValid_non_object integer_toString (VArr []) H).
Defined.

Lemma buildRequests_context_witness :
  exists req,
    buildRequests integer_toString Samples.testBrowser Samples.twoBids
      (Samples.bidderRequest Samples.twoBids VUndef) = Ret req /\
    method req = "POST" /\
    prop (data req) "ref" = VStr "http://www.google.com/?query=monkey" /\
    prop (data req) "ssl" = VBool false /\
    prop (data req) "mpa" = VBool true.
Proof.
  eexists. split; [vm_compute; reflexivity|].
  destruct (buildRequests_context integer_toString Samples.testBrowser
              Samples.twoBids (Samples.bidderRequest Samples.twoBids VUndef)
              _ eq_refl) as (Hm & _ & Href & Hssl & Hmpa & _).
  repeat split; assumption.
Defined.

Lemma buildRequests_payload_shape_witness :
  exists req,
    buildRequests integer_toString Samples.testBrowser Samples.twoBids
      (Samples.bidderRequest Samples.twoBids Samples.refusedConsent)
    = Ret req /\
    map fst (data req) =
      ["id"; "bids"; "ref"; "ssl"; "mpa"; "timeout"; "ssat"; "yl2"; "ab";
       "user"; "gdpr"] /\
    lookup "user" (data req) = Some (VObj [("euids", Samples.userIds)]).
Proof.
  eexists. split; [vm_compute; reflexivity|].
  exact (buildRequests_payload_shape integer_toString Samples.testBrowser
           Samples.twoBids
           (Samples.bidderRequest Samples.twoBids Samples.refusedConsent)
           _ eq_refl).
Defined.

Lemma buildRequests_entries_witness :
  exists req,
    buildRequests integer_toString Samples.testBrowser
      [Samples.bid1_legacy; Samples.bid2]
      (Samples.bidderRequest [Samples.bid1_legacy; Samples.bid2] VUndef)
    = Ret req /\
    prop (data req) "bids" =
      VArr [VObj [("bid", VStr "bid1"); ("sid", VStr "NDA=");
                  ("siz", Samples.sizes [(300, 600); (160, 60)]%Z);
                  ("viz", VBool true)];
            VObj [("bid", VStr "bid2"); ("sid", VStr "ODA=");
                  ("siz", Samples.sizes [(728, 90)]%Z);
                  ("viz", VBool true)]].
Proof.
  eexists. split; [vm_compute; reflexivity|].
  exact (buildRequests_entries integer_toString Samples.testBrowser
           [Samples.bid1_legacy; Samples.bid2]
           (Samples.bidderRequest [Samples.bid1_legacy; Samples.bid2] VUndef)
           _ eq_refl).
Defined.

Lemma buildRequests_needs_params_witness :
  exists req,
    buildRequests integer_toString Samples.testBrowser Samples.twoBids
      (Samples.bidderRequest Samples.twoBids VUndef) = Ret req /\
    Forall has_params Samples.twoBids.
Proof.
  eexists. split; [vm_compute; reflexivity|].
  exact (proj2 (buildRequests_needs_params integer_toString
                  Samples.testBrowser Samples.twoBids
                  (Samples.bidderRequest Samples.twoBids VUndef)
                  _ eq_refl)).
Defined.

Lemma buildRequests_resolves_witness :
  exists req,
    buildRequests integer_toString Samples.testBrowser
      [Samples.bid1_yl2_false; Samples.bid1_ssat99; Samples.bid2_ssat1]
      (Samples.bidderRequest [Samples.bid1_ssat99] VUndef) = Ret req /\
    prop (data req) "ssat" = num 99 /\
    prop (data req) "yl2" = VBool false.
Proof.
  eexists. split; [vm_compute; reflexivity|].
  exact (buildRequests_resolves integer_toString Samples.testBrowser
           [Samples.bid1_yl2_false; Samples.bid1_ssat99; Samples.bid2_ssat1]
           (Samples.bidderRequest [Samples.bid1_ssat99] VUndef)
           _ eq_refl).
Defined.

Lemma bidSizes_precedence_witness :
  readable_request Samples.bid1_legacy = true /\
  bidSizes Samples.bid1_legacy
  = Ret (Samples.sizes [(300, 600); (160, 60)]%Z).
Proof.
  split; [reflexivity|].
  exact (bidSizes_precedence _ (eq_refl : readable_request
                                           Samples.bid1_legacy = true)).
Defined.


Lemma interpretResponse_tracking_witness :
  get Samples.legacyRedirectWithTep "body"
  = Ret (field Samples.legacyRedirectWithTep "body") /\
  fst (interpretResponse Samples.legacyRedirectWithTep)
  = [Ajax (VStr "//hb.adscale.de/sspReqId/5f465360/39000")].
Proof.
  split; [reflexivity|].
  exact (interpretResponse_tracking Samples.legacyRedirectWithTep _ eq_refl).
Defined.

Lemma interpretResponse_raises_iff_witness :
  get Samples.legacyRedirectWithTep "body"
  = Ret (field Samples.legacyRedirectWithTep "body") /\
  snd (interpretResponse Samples.legacyRedirectWithTep) = Throw TypeError.
Proof.
  split; [reflexivity|].
  exact (proj2 (proj1 (interpretResponse_raises_iff
                         Samples.legacyRedirectWithTep _ eq_refl)) I).
Defined.


Lemma visibleInWindow_out_of_view_stops_witness :
  level Samples.belowTheFold
        (Samples.createWindow "http://www.xyz.com/" VUndef 200)
  = Ret false /\
  visibleInWindow Samples.belowTheFold
    (FrameWindow (Samples.createWindow "http://www.xyz.com/" VUndef 200)
       (Throw SecurityError) (TopWindow Samples.foreignWindow))
  = Ret false.
Proof.
  split; [reflexivity|].
  exact (visibleInWindow_out_of_view_stops Samples.belowTheFold
           (Samples.createWindow "http://www.xyz.com/" VUndef 200)
           (Throw SecurityError) (TopWindow Samples.foreignWindow) eq_refl).
Defined.

